(** * The DDK system calls of kernel/syscalls/syscalls_ddk.cpp

    A shallow embedding of the thirteen driver-development-kit system
    calls (interrupt objects, contiguous and physical VM objects,
    framebuffer, IO ports, ACPI root pointer) and the properties the
    design document states about them.

    Every system call of the file is a short straight-line routine whose
    work is done by other kernel components: the resource validator, the
    handle table of the calling process, the interrupt and VM-object
    dispatchers, the page allocator, the display driver.  A system call
    is therefore embedded as a finite program over the calls it makes to
    those components ([prog]); a [handler] gives the components'
    behaviour on a kernel state, and [run] executes a program against a
    handler and records the calls it made together with their results. *)

From stdpp Require Import base option list gmap.
From Stdlib Require Import ZArith Lia.

Local Open Scope Z_scope.

(** ** Scalar types of the system-call interface *)

Definition zx_status_t := Z.   (* int32_t *)
Definition zx_handle_t := Z.   (* uint32_t *)
Definition zx_rights_t := Z.   (* uint32_t *)
Definition zx_time_t := Z.     (* uint64_t *)
Definition user_ptr := Z.      (* user_out_ptr<T>: a user address, 0 is null *)

(** Kernel objects are named by an identity; a [fbl::RefPtr] is either
    null or a counted reference to one of them, a [HandleOwner] is either
    null or the unique owner of a handle. *)
Definition kobj := Z.
Definition RefPtr := option kobj.
Definition handle_ref := Z.
Definition HandleOwner := option handle_ref.

(** Modelled from the spec: the failure kinds of its error taxonomy as
    [zx_status_t] values (the header zircon/errors.h that defines them is
    not among the sources).  The numbers are the header's; the
    development relies only on [ZX_OK] being zero and on the error codes
    being negative and distinct.  The system calls themselves produce
    only the first four, the others come back from the components they
    call. *)
Definition ZX_OK : zx_status_t := 0.
Definition ZX_ERR_NOT_SUPPORTED : zx_status_t := -2.
Definition ZX_ERR_NO_MEMORY : zx_status_t := -4.
Definition ZX_ERR_INVALID_ARGS : zx_status_t := -10.
Definition ZX_ERR_BAD_HANDLE : zx_status_t := -11.
Definition ZX_ERR_WRONG_TYPE : zx_status_t := -12.
Definition ZX_ERR_OUT_OF_RANGE : zx_status_t := -14.
Definition ZX_ERR_BAD_STATE : zx_status_t := -20.
Definition ZX_ERR_CANCELED : zx_status_t := -23.
Definition ZX_ERR_ALREADY_BOUND : zx_status_t := -27.
Definition ZX_ERR_ACCESS_DENIED : zx_status_t := -30.

Inductive rsrc_kind :=
| ZX_RSRC_KIND_ROOT
| ZX_RSRC_KIND_MMIO
| ZX_RSRC_KIND_IRQ
| ZX_RSRC_KIND_IOPORT.

(** The dispatcher type a typed handle lookup asks for:
    [GetDispatcher(handle, &ptr)] is a template over the type of [ptr]. *)
Inductive dispatcher_type :=
| InterruptDispatcher
| VmObjectDispatcher
| ResourceDispatcher.

#[export] Instance rsrc_kind_eq_dec : EqDecision rsrc_kind.
Proof. solve_decision. Defined.

#[export] Instance dispatcher_type_eq_dec : EqDecision dispatcher_type.
Proof. solve_decision. Defined.

Inductive pmm_alloc_flags := PMM_ALLOC_FLAG_ANY.
Inductive display_flags := DISPLAY_FLAGS_NONE | DISPLAY_FLAG_HW_FRAMEBUFFER.

Record display_info := {
  di_format : Z;
  di_width : Z;
  di_height : Z;
  di_stride : Z;
  di_flags : display_flags;
}.

(** ** Build and boot parameters

    [ARCH_X86] is the preprocessor switch of the file, [PAGE_SIZE_SHIFT]
    the page-size macro of the target, and the remaining fields are the
    [bootloader] structure that the x86 platform fills at boot. *)
Record Platform := {
  ARCH_X86 : bool;
  PAGE_SIZE_SHIFT : Z;
  fb_base : Z;
  fb_format : Z;
  fb_width : Z;
  fb_height : Z;
  fb_stride : Z;
  acpi_rsdp : Z;
}.

Definition PAGE_SIZE (cfg : Platform) : Z := Z.shiftl 1 (PAGE_SIZE_SHIFT cfg).

Definition SIZE_MAX_plus_1 : Z := 2 ^ 64.

(** Modelled from the spec: the macro [ROUNDUP_PAGE_SIZE] (its header is
    not among the sources) rounds a size up to the page granularity; the
    system calls store the result back into a [size_t], hence the
    reduction modulo [2^64]. *)
Definition ROUNDUP_PAGE_SIZE (cfg : Platform) (x : Z) : Z :=
  ((x + (PAGE_SIZE cfg - 1)) / PAGE_SIZE cfg * PAGE_SIZE cfg) mod SIZE_MAX_plus_1.

(** Conversion of a (possibly negative) [zx_status_t] to [uint64_t]. *)
Definition to_uint64 (x : Z) : Z := x mod 2 ^ 64.

(** [static_cast<uint8_t>] *)
Definition to_uint8 (x : Z) : Z := x mod 2 ^ 8.

(** ** Calls to other kernel components

    One constructor per function the file calls, indexed by the type of
    what the call hands back (return value and out-parameters).  The
    process the calls act on is the current one
    ([ProcessDispatcher::GetCurrent()]) and is part of the kernel state
    the handler works on. *)
Inductive ddkE : Type -> Type :=
(* object/resources.h *)
| validate_resource (hrsrc : zx_handle_t) (kind : rsrc_kind) : ddkE zx_status_t
| validate_resource_mmio (hrsrc : zx_handle_t) (paddr size : Z) : ddkE zx_status_t
(* handles and the handle table of the calling process *)
| Handle_Make (dispatcher : RefPtr) (rights : zx_rights_t) : ddkE HandleOwner
| MapHandleToValue (handle : HandleOwner) : ddkE zx_handle_t
| AddHandle (handle : HandleOwner) : ddkE unit
| GetDispatcher (ty : dispatcher_type) (handle : zx_handle_t)
    : ddkE (zx_status_t * RefPtr)
(* destructors of the smart pointers that go out of scope non-null *)
| RefPtr_release (o : kobj) : ddkE unit
| HandleOwner_destroy (h : handle_ref) : ddkE unit
(* user memory *)
| copy_to_user (ptr : user_ptr) (value : Z) : ddkE zx_status_t
(* interrupt dispatcher *)
| InterruptEventDispatcher_Create : ddkE (zx_status_t * RefPtr * zx_rights_t)
| Bind (interrupt : kobj) (slot vector options : Z) : ddkE zx_status_t
| Unbind (interrupt : kobj) (slot : Z) : ddkE zx_status_t
| WaitForInterrupt (interrupt : kobj) : ddkE (option (zx_status_t * Z))
| WaitForInterruptWithTimeStamp (interrupt : kobj)
    : ddkE (option (zx_status_t * Z * zx_time_t))
| UserSignal (interrupt : kobj) (slot : Z) (timestamp : zx_time_t)
    : ddkE zx_status_t
(* VM objects and the page allocator behind them *)
| VmObjectPaged_Create (flags : pmm_alloc_flags) (size : Z)
    : ddkE (zx_status_t * RefPtr)
| CommitRangeContiguous (vmo : kobj) (offset len : Z) (alignment_log2 : Z)
    : ddkE (zx_status_t * Z)
| VmObjectPhysical_Create (paddr size : Z) : ddkE (zx_status_t * RefPtr)
| VmObjectDispatcher_Create (vmo : RefPtr)
    : ddkE (zx_status_t * RefPtr * zx_rights_t)
| VmObjectDispatcher_vmo (dispatcher : kobj) : ddkE RefPtr
(* display driver, address translation, IO bitmap *)
| vaddr_to_paddr (vaddr : Z) : ddkE Z
| udisplay_set_framebuffer (paddr len : Z) : ddkE zx_status_t
| udisplay_set_framebuffer_vmo (vmo : RefPtr) : ddkE zx_status_t
| udisplay_set_display_info (di : display_info) : ddkE unit
| SetIoBitmap (io_addr len enable : Z) : ddkE zx_status_t.

(** ** Programs

    [Ret] returns from the system call; [Vis] calls a component and goes
    on with what it hands back; [Fault] is the dereference of a null
    smart pointer; [Suspend] is a thread that a wait call has put to
    sleep with nothing pending to wake it (the wait calls hand back
    [None] then): the system call does not return. *)
Inductive prog (R : Type) : Type :=
| Ret (r : R)
| Fault
| Suspend
| Vis {X : Type} (c : ddkE X) (k : X -> prog R).

Arguments Ret {R} r.
Arguments Fault {R}.
Arguments Suspend {R}.
Arguments Vis {R X} c k.

Fixpoint prog_bind {A B} (f : A -> prog B) (p : prog A) : prog B :=
  match p with
  | Ret a => f a
  | Fault => Fault
  | Suspend => Suspend
  | Vis c k => Vis c (fun x => prog_bind f (k x))
  end.

#[export] Instance prog_mret : MRet prog := @Ret.
#[export] Instance prog_mbind : MBind prog := @prog_bind.

Definition call {X} (c : ddkE X) : prog X := Vis c Ret.

(** Scope exit of a [fbl::RefPtr] and of a [HandleOwner] local. *)
Definition drop (p : RefPtr) : prog unit :=
  match p with
  | Some o => call (RefPtr_release o)
  | None => Ret tt
  end.

Definition drop_handle (h : HandleOwner) : prog unit :=
  match h with
  | Some r => call (HandleOwner_destroy r)
  | None => Ret tt
  end.

(** ** The system calls

    Each definition follows its C++ function statement by statement.  An
    early [return] ends the program; the smart pointers still alive at
    that point are dropped first. *)

Definition display_info_of (format width height stride : Z) : display_info :=
  {| di_format := format; di_width := width; di_height := height;
     di_stride := stride; di_flags := DISPLAY_FLAG_HW_FRAMEBUFFER |}.

Definition sys_interrupt_create (hrsrc : zx_handle_t) (options : Z)
    (out_handle : user_ptr) : prog Z :=
  if negb (options =? 0) then Ret ZX_ERR_INVALID_ARGS else
  status ← call (validate_resource hrsrc ZX_RSRC_KIND_ROOT);
  if status <? 0 then Ret status else
  '(result, dispatcher, rights) ← call InterruptEventDispatcher_Create;
  if negb (result =? ZX_OK) then drop dispatcher;; Ret result else
  handle ← call (Handle_Make dispatcher rights);
  hv ← call (MapHandleToValue handle);
  status ← call (copy_to_user out_handle hv);
  if negb (status =? ZX_OK) then drop_handle handle;; Ret status else
  call (AddHandle handle);;
  Ret ZX_OK.

Definition sys_interrupt_bind (handle : zx_handle_t) (slot : Z)
    (hrsrc : zx_handle_t) (vector options : Z) : prog Z :=
  status ← call (validate_resource hrsrc ZX_RSRC_KIND_ROOT);
  if status <? 0 then Ret status else
  '(status, interrupt) ← call (GetDispatcher InterruptDispatcher handle);
  if negb (status =? ZX_OK) then drop interrupt;; Ret status else
  match interrupt with
  | None => Fault
  | Some i =>
      status ← call (Bind i slot vector options);
      drop interrupt;; Ret status
  end.

Definition sys_interrupt_unbind (handle : zx_handle_t) (slot : Z) : prog Z :=
  '(status, interrupt) ← call (GetDispatcher InterruptDispatcher handle);
  if negb (status =? ZX_OK) then drop interrupt;; Ret status else
  match interrupt with
  | None => Fault
  | Some i =>
      status ← call (Unbind i slot);
      drop interrupt;; Ret status
  end.

Definition sys_interrupt_complete (handle_value : zx_handle_t) : prog Z :=
  '(status, interrupt) ← call (GetDispatcher InterruptDispatcher handle_value);
  drop interrupt;; Ret status.

Definition sys_interrupt_wait (handle : zx_handle_t) (out_slots : user_ptr)
    : prog Z :=
  '(status, interrupt) ← call (GetDispatcher InterruptDispatcher handle);
  if negb (status =? ZX_OK) then drop interrupt;; Ret status else
  match interrupt with
  | None => Fault
  | Some i =>
      r ← call (WaitForInterrupt i);
      match r with
      | None => Suspend
      | Some (status, slots) =>
          status ← (if (status =? ZX_OK) && negb (out_slots =? 0)
                    then call (copy_to_user out_slots slots)
                    else Ret status);
          drop interrupt;; Ret status
      end
  end.

Definition sys_interrupt_wait_with_timestamp (handle : zx_handle_t)
    (out_slot out_timestamp : user_ptr) : prog Z :=
  '(status, interrupt) ← call (GetDispatcher InterruptDispatcher handle);
  if negb (status =? ZX_OK) then drop interrupt;; Ret status else
  match interrupt with
  | None => Fault
  | Some i =>
      r ← call (WaitForInterruptWithTimeStamp i);
      match r with
      | None => Suspend
      | Some (status, slot, timestamp) =>
          status ← (if (status =? ZX_OK) && negb (out_slot =? 0)
                    then call (copy_to_user out_slot slot)
                    else Ret status);
          status ← (if (status =? ZX_OK) && negb (out_timestamp =? 0)
                    then call (copy_to_user out_timestamp timestamp)
                    else Ret status);
          drop interrupt;; Ret status
      end
  end.

Definition sys_interrupt_signal (handle : zx_handle_t) (slot : Z)
    (timestamp : zx_time_t) : prog Z :=
  '(status, interrupt) ← call (GetDispatcher InterruptDispatcher handle);
  if negb (status =? ZX_OK) then drop interrupt;; Ret status else
  match interrupt with
  | None => Fault
  | Some i =>
      status ← call (UserSignal i slot timestamp);
      drop interrupt;; Ret status
  end.

(** The tail shared by the two VM-object constructors: wrap the VM
    object in a dispatcher, make a handle, report its value, install it. *)
Definition vmo_handle_out (vmo : RefPtr) (_out : user_ptr) : prog Z :=
  '(result, dispatcher, rights) ← call (VmObjectDispatcher_Create vmo);
  if negb (result =? ZX_OK) then drop dispatcher;; Ret result else
  handle ← call (Handle_Make dispatcher rights);
  match handle with
  | None => Ret ZX_ERR_NO_MEMORY
  | Some _ =>
      hv ← call (MapHandleToValue handle);
      status ← call (copy_to_user _out hv);
      if negb (status =? ZX_OK) then drop_handle handle;; Ret status else
      call (AddHandle handle);;
      Ret ZX_OK
  end.

Definition sys_vmo_create_contiguous (cfg : Platform) (hrsrc : zx_handle_t)
    (size alignment_log2 : Z) (_out : user_ptr) : prog Z :=
  if size =? 0 then Ret ZX_ERR_INVALID_ARGS else
  let alignment_log2 :=
    if alignment_log2 =? 0 then PAGE_SIZE_SHIFT cfg else alignment_log2 in
  if (alignment_log2 <? PAGE_SIZE_SHIFT cfg) || (alignment_log2 >=? 8 * 8)
  then Ret ZX_ERR_INVALID_ARGS else
  status ← call (validate_resource hrsrc ZX_RSRC_KIND_ROOT);
  if status <? 0 then Ret status else
  let size := ROUNDUP_PAGE_SIZE cfg size in
  '(status, vmo) ← call (VmObjectPaged_Create PMM_ALLOC_FLAG_ANY size);
  if negb (status =? ZX_OK) then drop vmo;; Ret status else
  let align_log2_arg := to_uint8 alignment_log2 in
  match vmo with
  | None => Fault
  | Some v =>
      '(status, committed) ← call (CommitRangeContiguous v 0 size align_log2_arg);
      if (status <? 0) || (committed <? size)
      then drop vmo;; Ret ZX_ERR_NO_MEMORY
      else vmo_handle_out vmo _out
  end.

Definition sys_vmo_create_physical (cfg : Platform) (hrsrc : zx_handle_t)
    (paddr size : Z) (_out : user_ptr) : prog Z :=
  status ← call (validate_resource_mmio hrsrc paddr size);
  if status <? 0 then Ret status else
  let size := ROUNDUP_PAGE_SIZE cfg size in
  '(result, vmo) ← call (VmObjectPhysical_Create paddr size);
  if negb (result =? ZX_OK) then drop vmo;; Ret result else
  vmo_handle_out vmo _out.

Definition sys_bootloader_fb_get_info (cfg : Platform)
    (format width height stride : user_ptr) : prog Z :=
  if ARCH_X86 cfg then
    if fb_base cfg =? 0 then Ret ZX_ERR_INVALID_ARGS else
    status ← call (copy_to_user format (fb_format cfg));
    if negb (status =? ZX_OK) then Ret status else
    status ← call (copy_to_user width (fb_width cfg));
    if negb (status =? ZX_OK) then Ret status else
    status ← call (copy_to_user height (fb_height cfg));
    if negb (status =? ZX_OK) then Ret status else
    status ← call (copy_to_user stride (fb_stride cfg));
    if negb (status =? ZX_OK) then Ret status else
    Ret ZX_OK
  else Ret ZX_ERR_NOT_SUPPORTED.

Definition sys_set_framebuffer (hrsrc : zx_handle_t) (vaddr : user_ptr)
    (len format width height stride : Z) : prog Z :=
  status ← call (validate_resource hrsrc ZX_RSRC_KIND_ROOT);
  if status <? 0 then Ret status else
  paddr ← call (vaddr_to_paddr vaddr);
  call (udisplay_set_framebuffer paddr len);;
  call (udisplay_set_display_info (display_info_of format width height stride));;
  Ret ZX_OK.

Definition sys_set_framebuffer_vmo (hrsrc vmo_handle : zx_handle_t)
    (len format width height stride : Z) : prog Z :=
  status ← call (validate_resource hrsrc ZX_RSRC_KIND_ROOT);
  if status <? 0 then Ret status else
  '(status, vmo) ← call (GetDispatcher VmObjectDispatcher vmo_handle);
  if negb (status =? ZX_OK) then drop vmo;; Ret status else
  match vmo with
  | None => Fault
  | Some d =>
      v ← call (VmObjectDispatcher_vmo d);
      status ← call (udisplay_set_framebuffer_vmo v);
      if negb (status =? ZX_OK) then drop vmo;; Ret status else
      call (udisplay_set_display_info (display_info_of format width height stride));;
      drop vmo;; Ret ZX_OK
  end.

Definition sys_mmap_device_io (cfg : Platform) (hrsrc : zx_handle_t)
    (io_addr len : Z) : prog Z :=
  if ARCH_X86 cfg then
    status ← call (validate_resource hrsrc ZX_RSRC_KIND_ROOT);
    if status <? 0 then Ret status else
    call (SetIoBitmap io_addr len 1)
  else Ret ZX_ERR_NOT_SUPPORTED.

(** The return type is [uint64_t]: a failure status is converted. *)
Definition sys_acpi_uefi_rsdp (cfg : Platform) (hrsrc : zx_handle_t) : prog Z :=
  status ← call (validate_resource hrsrc ZX_RSRC_KIND_ROOT);
  if status <? 0 then Ret (to_uint64 status) else
  if ARCH_X86 cfg then Ret (acpi_rsdp cfg) else Ret 0.

(** The system-call table of the file: one constructor per entry point,
    carrying its arguments. *)
Inductive syscall :=
| interrupt_create (hrsrc : zx_handle_t) (options : Z) (out_handle : user_ptr)
| interrupt_bind (handle : zx_handle_t) (slot : Z) (hrsrc : zx_handle_t)
    (vector options : Z)
| interrupt_unbind (handle : zx_handle_t) (slot : Z)
| interrupt_complete (handle : zx_handle_t)
| interrupt_wait (handle : zx_handle_t) (out_slots : user_ptr)
| interrupt_wait_with_timestamp (handle : zx_handle_t)
    (out_slot out_timestamp : user_ptr)
| interrupt_signal (handle : zx_handle_t) (slot : Z) (timestamp : zx_time_t)
| vmo_create_contiguous (hrsrc : zx_handle_t) (size alignment_log2 : Z)
    (_out : user_ptr)
| vmo_create_physical (hrsrc : zx_handle_t) (paddr size : Z) (_out : user_ptr)
| bootloader_fb_get_info (format width height stride : user_ptr)
| set_framebuffer (hrsrc : zx_handle_t) (vaddr : user_ptr)
    (len format width height stride : Z)
| set_framebuffer_vmo (hrsrc vmo_handle : zx_handle_t)
    (len format width height stride : Z)
| mmap_device_io (hrsrc : zx_handle_t) (io_addr len : Z)
| acpi_uefi_rsdp (hrsrc : zx_handle_t).

Definition sys (cfg : Platform) (sc : syscall) : prog Z :=
  match sc with
  | interrupt_create hrsrc options out => sys_interrupt_create hrsrc options out
  | interrupt_bind h slot hrsrc vector options =>
      sys_interrupt_bind h slot hrsrc vector options
  | interrupt_unbind h slot => sys_interrupt_unbind h slot
  | interrupt_complete h => sys_interrupt_complete h
  | interrupt_wait h out => sys_interrupt_wait h out
  | interrupt_wait_with_timestamp h out_slot out_ts =>
      sys_interrupt_wait_with_timestamp h out_slot out_ts
  | interrupt_signal h slot ts => sys_interrupt_signal h slot ts
  | vmo_create_contiguous hrsrc size align out =>
      sys_vmo_create_contiguous cfg hrsrc size align out
  | vmo_create_physical hrsrc paddr size out =>
      sys_vmo_create_physical cfg hrsrc paddr size out
  | bootloader_fb_get_info f w h s => sys_bootloader_fb_get_info cfg f w h s
  | set_framebuffer hrsrc vaddr len f w h s =>
      sys_set_framebuffer hrsrc vaddr len f w h s
  | set_framebuffer_vmo hrsrc vmo len f w h s =>
      sys_set_framebuffer_vmo hrsrc vmo len f w h s
  | mmap_device_io hrsrc io_addr len => sys_mmap_device_io cfg hrsrc io_addr len
  | acpi_uefi_rsdp hrsrc => sys_acpi_uefi_rsdp cfg hrsrc
  end.

(** What a system call hands back to user mode when resource validation
    reported [status]: the status itself, which the [uint64_t] return
    type of [sys_acpi_uefi_rsdp] converts. *)
Definition failure_return (sc : syscall) (status : zx_status_t) : Z :=
  match sc with
  | acpi_uefi_rsdp _ => to_uint64 status
  | _ => status
  end.

(** ** Running a program

    A handler answers every call on a state of its choice.  [run]
    threads the state through the program and collects the trace: the
    calls made, in order, each with what it handed back. *)
Definition handler (St : Type) : Type := forall X, ddkE X -> St -> X * St.

Inductive event : Type :=
| Ev {X : Type} (c : ddkE X) (x : X).

Inductive outcome (R St : Type) : Type :=
| Returned (r : R) (s : St)
| Faulted (s : St)
| Suspended (s : St).

Arguments Returned {R St} r s.
Arguments Faulted {R St} s.
Arguments Suspended {R St} s.

Section Run.
Context {St : Type} (hd : handler St).

Fixpoint run {R} (p : prog R) (s : St) : outcome R St * list event :=
  match p with
  | Ret r => (Returned r s, [])
  | Fault => (Faulted s, [])
  | Suspend => (Suspended s, [])
  | Vis c k =>
      let a := hd _ c s in
      let o := run (k (fst a)) (snd a) in
      (fst o, Ev c (fst a) :: snd o)
  end.

Definition result {R} (p : prog R) (s : St) : outcome R St := fst (run p s).

Definition trace {R} (p : prog R) (s : St) : list event := snd (run p s).

End Run.

(** ** Reading a trace *)

(** A class of calls is a boolean on calls; [on P e] tells whether the
    call of event [e] is in the class. *)
Definition call_class : Type := forall X, ddkE X -> bool.

Definition on (P : call_class) (e : event) : bool :=
  match e with Ev c _ => P _ c end.

(** The two entry points of the resource validator. *)
Definition validation_call : call_class := fun _ c =>
  match c with
  | validate_resource _ _ | validate_resource_mmio _ _ _ => true
  | _ => false
  end.

(** Calls that make a handle, name it or put it into the handle table. *)
Definition handle_call : call_class := fun _ c =>
  match c with
  | Handle_Make _ _ | AddHandle _ | MapHandleToValue _ => true
  | _ => false
  end.

(** Calls that resolve a target handle through the handle table. *)
Definition lookup_call : call_class := fun _ c =>
  match c with
  | GetDispatcher _ _ => true
  | _ => false
  end.

(** Calls into a dispatcher: creation of one, the interrupt state
    machine, the accessors. *)
Definition dispatcher_call : call_class := fun _ c =>
  match c with
  | InterruptEventDispatcher_Create
  | Bind _ _ _ _ | Unbind _ _
  | WaitForInterrupt _ | WaitForInterruptWithTimeStamp _
  | UserSignal _ _ _
  | VmObjectDispatcher_Create _ | VmObjectDispatcher_vmo _ => true
  | _ => false
  end.

(** Calls that change the state of an interrupt slot. *)
Definition slot_call : call_class := fun _ c =>
  match c with
  | Bind _ _ _ _ | Unbind _ _
  | WaitForInterrupt _ | WaitForInterruptWithTimeStamp _
  | UserSignal _ _ _ => true
  | _ => false
  end.

(** Calls into the page allocator: creation of a paged VM object and
    commit of its pages. *)
Definition page_alloc_call : call_class := fun _ c =>
  match c with
  | VmObjectPaged_Create _ _ | CommitRangeContiguous _ _ _ _ => true
  | _ => false
  end.

(** Calls that reach hardware: display driver, IO bitmap. *)
Definition hardware_call : call_class := fun _ c =>
  match c with
  | udisplay_set_framebuffer _ _
  | udisplay_set_framebuffer_vmo _
  | udisplay_set_display_info _
  | SetIoBitmap _ _ _ => true
  | _ => false
  end.

(** Calls that write to user memory. *)
Definition user_write_call : call_class := fun _ c =>
  match c with
  | copy_to_user _ _ => true
  | _ => false
  end.

Definition is_validation : event -> bool := on validation_call.
Definition creates_handle : event -> bool := on handle_call.
Definition resolves_handle : event -> bool := on lookup_call.
Definition touches_dispatcher : event -> bool := on dispatcher_call.
Definition changes_slot : event -> bool := on slot_call.
Definition allocates_pages : event -> bool := on page_alloc_call.
Definition reaches_hardware : event -> bool := on hardware_call.
Definition writes_user : event -> bool := on user_write_call.

(** The status a resource validation handed back. *)
Definition validation_status (e : event) : option zx_status_t :=
  match e with
  | Ev c x =>
      match c in ddkE X return X -> option zx_status_t with
      | validate_resource _ _ => fun st => Some st
      | validate_resource_mmio _ _ _ => fun st => Some st
      | _ => fun _ => None
      end x
  end.

(** The handle a validation was asked about. *)
Definition validated_handle (e : event) : option zx_handle_t :=
  match e with
  | Ev (validate_resource hrsrc _) _ => Some hrsrc
  | Ev (validate_resource_mmio hrsrc _ _) _ => Some hrsrc
  | _ => None
  end.

(** The range a ranged validation was asked about, as (base, size). *)
Definition validated_range (e : event) : option (Z * Z) :=
  match e with
  | Ev (validate_resource_mmio _ paddr size) _ => Some (paddr, size)
  | _ => None
  end.

(** The range a physical VM object was created over. *)
Definition wrapped_range (e : event) : option (Z * Z) :=
  match e with
  | Ev (VmObjectPhysical_Create paddr size) _ => Some (paddr, size)
  | _ => None
  end.

(** The byte count requested from the paged-memory allocator. *)
Definition alloc_request (e : event) : option Z :=
  match e with
  | Ev (VmObjectPaged_Create _ size) _ => Some size
  | Ev (CommitRangeContiguous _ _ len _) _ => Some len
  | _ => None
  end.



(** The state the handler left behind when it answered the call of [e]
    from state [s]. *)
Definition state_after {St} (hd : handler St) (e : event) (s : St) : St :=
  match e with Ev c _ => snd (hd _ c s) end.

(** ** The shape of a program with respect to validation

    [never P p]: no run of [p] makes a call of class [P];
    [no_validation p]: no run of [p] asks the resource validator
    anything.  [validates_then ret p]: [p] starts by asking the
    validator, returns [ret status] at once when the answer is
    negative, and never asks again otherwise. *)
Fixpoint never (P : call_class) {R} (p : prog R) : Prop :=
  match p with
  | Vis c k => P _ c = false /\ forall x, never P (k x)
  | _ => True
  end.

Definition no_validation {R} (p : prog R) : Prop := never validation_call p.

Definition fails_fast {R} (ret : zx_status_t -> R) (k : zx_status_t -> prog R)
    : Prop :=
  forall status, if status <? 0 then k status = Ret (ret status)
                 else no_validation (k status).

Inductive validates_then {R} (hrsrc : zx_handle_t) (ret : zx_status_t -> R)
    : prog R -> Prop :=
| vt_resource kind k :
    fails_fast ret k ->
    validates_then hrsrc ret (Vis (validate_resource hrsrc kind) k)
| vt_mmio paddr size k :
    fails_fast ret k ->
    validates_then hrsrc ret (Vis (validate_resource_mmio hrsrc paddr size) k).

(** The resource handle among the arguments of a system call. *)
Definition resource_handle (sc : syscall) : option zx_handle_t :=
  match sc with
  | interrupt_create hrsrc _ _ | interrupt_bind _ _ hrsrc _ _
  | vmo_create_contiguous hrsrc _ _ _ | vmo_create_physical hrsrc _ _ _
  | set_framebuffer hrsrc _ _ _ _ _ _ | set_framebuffer_vmo hrsrc _ _ _ _ _ _
  | mmap_device_io hrsrc _ _ | acpi_uefi_rsdp hrsrc => Some hrsrc
  | interrupt_unbind _ _ | interrupt_complete _ | interrupt_wait _ _
  | interrupt_wait_with_timestamp _ _ _ | interrupt_signal _ _ _
  | bootloader_fb_get_info _ _ _ _ => None
  end.

(** The interrupt handle a system call without resource handle works on. *)
Definition interrupt_handle (sc : syscall) : option zx_handle_t :=
  match sc with
  | interrupt_unbind h _ | interrupt_complete h | interrupt_wait h _
  | interrupt_wait_with_timestamp h _ _ | interrupt_signal h _ _ => Some h
  | _ => None
  end.

Definition begins_by_validating (tr : list event) : bool :=
  match tr with
  | e :: _ => is_validation e
  | [] => false
  end.

(** ** Example platforms and an instrumented stand-in for the kernel *)

Definition pc_x86 : Platform :=
  {| ARCH_X86 := true; PAGE_SIZE_SHIFT := 12;
     fb_base := 0xe0000000; fb_format := 4; fb_width := 1024;
     fb_height := 768; fb_stride := 1024; acpi_rsdp := 0x7fe14 |}.

(** An x86 machine whose bootloader passed no framebuffer. *)
Definition pc_headless : Platform :=
  {| ARCH_X86 := true; PAGE_SIZE_SHIFT := 12;
     fb_base := 0; fb_format := 0; fb_width := 0;
     fb_height := 0; fb_stride := 0; acpi_rsdp := 0x7fe14 |}.

Definition arm64 : Platform :=
  {| ARCH_X86 := false; PAGE_SIZE_SHIFT := 12;
     fb_base := 0; fb_format := 0; fb_width := 0;
     fb_height := 0; fb_stride := 0; acpi_rsdp := 0 |}.

(** A mock of the components: the validator answers [validation], the
    contiguous commit reports [committed] bytes, every other call
    succeeds.  Its state counts the calls it has answered. *)
Definition mock (validation : zx_status_t) (committed : Z) : handler nat :=
  fun X c n =>
    (match c in ddkE X return X with
     | validate_resource _ _ => validation
     | validate_resource_mmio _ _ _ => validation
     | Handle_Make _ _ => Some 7
     | MapHandleToValue _ => 0x1003
     | AddHandle _ => tt
     | GetDispatcher _ _ => (ZX_OK, Some 1)
     | RefPtr_release _ => tt
     | HandleOwner_destroy _ => tt
     | copy_to_user _ _ => ZX_OK
     | InterruptEventDispatcher_Create => (ZX_OK, Some 1, 0)
     | Bind _ _ _ _ => ZX_OK
     | Unbind _ _ => ZX_OK
     | WaitForInterrupt _ => Some (ZX_OK, 1)
     | WaitForInterruptWithTimeStamp _ => Some (ZX_OK, 0, 0)
     | UserSignal _ _ _ => ZX_OK
     | VmObjectPaged_Create _ _ => (ZX_OK, Some 2)
     | CommitRangeContiguous _ _ _ _ => (ZX_OK, committed)
     | VmObjectPhysical_Create _ _ => (ZX_OK, Some 2)
     | VmObjectDispatcher_Create _ => (ZX_OK, Some 3, 0)
     | VmObjectDispatcher_vmo _ => Some 2
     | vaddr_to_paddr vaddr => vaddr
     | udisplay_set_framebuffer _ _ => ZX_OK
     | udisplay_set_framebuffer_vmo _ => ZX_OK
     | udisplay_set_display_info _ => tt
     | SetIoBitmap _ _ _ => ZX_OK
     end, S n).

(** ** Further notions the statements use *)

(** The boot framebuffer is absent when the target is not x86 or when
    the x86 bootloader left the framebuffer base at zero. *)
Definition no_boot_framebuffer (cfg : Platform) : Prop :=
  ARCH_X86 cfg = false \/ fb_base cfg = 0.

(** The calls the design document rules out after a failed validation. *)
Definition effect_free (e : event) : Prop :=
  creates_handle e = false /\ resolves_handle e = false /\
  touches_dispatcher e = false /\ changes_slot e = false /\
  allocates_pages e = false /\ reaches_hardware e = false /\
  writes_user e = false.

(** The signed reading of a 64-bit return register. *)
Definition to_int64 (x : Z) : Z := (x + 2 ^ 63) mod 2 ^ 64 - 2 ^ 63.

Definition physical_create_call : call_class := fun _ c =>
  match c with
  | VmObjectPhysical_Create _ _ => true
  | _ => false
  end.

(** The alignment [sys_vmo_create_contiguous] works with after its
    default has been applied. *)
Definition effective_alignment (cfg : Platform) (alignment_log2 : Z) : Z :=
  if alignment_log2 =? 0 then PAGE_SIZE_SHIFT cfg else alignment_log2.

(** The status a system call returns on a check of its arguments or of
    the platform that it makes before it calls anything: the options of
    [sys_interrupt_create], size and alignment of
    [sys_vmo_create_contiguous], the architecture in
    [sys_mmap_device_io].  The other system calls that take a resource
    handle have no such check. *)
Definition early_return (cfg : Platform) (sc : syscall) : option zx_status_t :=
  match sc with
  | interrupt_create _ options _ =>
      if negb (options =? 0) then Some ZX_ERR_INVALID_ARGS else None
  | vmo_create_contiguous _ size alignment_log2 _ =>
      if size =? 0 then Some ZX_ERR_INVALID_ARGS else
      if (effective_alignment cfg alignment_log2 <? PAGE_SIZE_SHIFT cfg)
         || (effective_alignment cfg alignment_log2 >=? 8 * 8)
      then Some ZX_ERR_INVALID_ARGS else None
  | mmap_device_io _ _ _ =>
      if ARCH_X86 cfg then None else Some ZX_ERR_NOT_SUPPORTED
  | _ => None
  end.


(** The VM object a creation call handed back. *)
Definition created_vmo (e : event) : option kobj :=
  match e with
  | Ev c x =>
      match c in ddkE X return X -> option kobj with
      | VmObjectPaged_Create _ _ => fun r => snd r
      | _ => fun _ => None
      end x
  end.

(** A handler has transient lookups when dropping the reference a
    lookup handed out gives back the state the lookup started from. *)
Definition transient_lookup {St} (hd : handler St) : Prop :=
  forall s ty h,
    result hd (drop (snd (fst (hd _ (GetDispatcher ty h) s))))
      (snd (hd _ (GetDispatcher ty h) s))
    = Returned tt s.

(** What a timestamped wait handed back. *)
Definition wait_result (e : event) : option (option (zx_status_t * Z * zx_time_t)) :=
  match e with
  | Ev c x =>
      match c in ddkE X return X -> option (option (zx_status_t * Z * zx_time_t)) with
      | WaitForInterruptWithTimeStamp _ => fun r => Some r
      | _ => fun _ => None
      end x
  end.

(** ** A model of the kernel components

    The components behind the calls live in other files.  The handler
    [kernel] below gives the resource validator, the handle table and
    the interrupt dispatcher the behaviour the design document
    describes; the calls to the VM subsystem, the display driver and the
    IO bitmap are passed on to a handler [ext] that is left open, and
    the number of slots of an interrupt object, [MAX_SLOTS], is a
    parameter. *)

(** Modelled from the spec: the per-slot state machine of the interrupt
    dispatcher, IDLE -> BOUND -> SIGNALED -> BOUND ... -> IDLE.  A thread
    waiting on the object is not part of the state: in this sequential
    model a wait with nothing pending does not return. *)
Inductive slot_state := IDLE | BOUND | SIGNALED.

#[export] Instance slot_state_eq_dec : EqDecision slot_state.
Proof. solve_decision. Defined.

(** Modelled from the spec: one slot of an interrupt object. *)
Record slot := {
  slot_vector : Z;
  slot_st : slot_state;
  pending_timestamp : zx_time_t;
}.

(** Modelled from the spec: a slot nothing is bound to. *)
Definition idle_slot : slot :=
  {| slot_vector := 0; slot_st := IDLE; pending_timestamp := 0 |}.

(** Modelled from the spec: the kernel objects behind handles, a closed
    variant type.  A resource carries its kind and, for the ranged
    kinds, its range [base, base + size). *)
Inductive dispatcher :=
| Interrupt (slots : list slot)
| VmObject
| Resource (kind : rsrc_kind) (base size : Z).

(** The variant of an object, which a typed lookup compares with the
    type it expects. *)
Definition type_of (d : dispatcher) : dispatcher_type :=
  match d with
  | Interrupt _ => InterruptDispatcher
  | VmObject => VmObjectDispatcher
  | Resource _ _ _ => ResourceDispatcher
  end.

(** Modelled from the spec: the kernel state the calls of one process
    work on.  Every live object carries its reference count; a handle is
    either installed in the handle table of the process, under its
    value, or still owned by the system call that made it; [vectors]
    records which interrupt object has claimed which hardware vector;
    [user_memory] holds the words of the caller's address space that are
    mapped. *)
Record kernel := {
  objects : gmap kobj (dispatcher * positive);
  handle_table : gmap zx_handle_t (kobj * zx_rights_t);
  unowned : gmap handle_ref (kobj * zx_rights_t);
  vectors : gmap Z kobj;
  user_memory : gmap user_ptr Z;
}.

(** Update of one field of the kernel state. *)
Definition with_objects (f : gmap kobj (dispatcher * positive) ->
                             gmap kobj (dispatcher * positive)) (k : kernel) :=
  {| objects := f (objects k); handle_table := handle_table k;
     unowned := unowned k; vectors := vectors k;
     user_memory := user_memory k |}.

Definition with_handle_table (f : gmap zx_handle_t (kobj * zx_rights_t) ->
                                  gmap zx_handle_t (kobj * zx_rights_t))
    (k : kernel) :=
  {| objects := objects k; handle_table := f (handle_table k);
     unowned := unowned k; vectors := vectors k;
     user_memory := user_memory k |}.

Definition with_unowned (f : gmap handle_ref (kobj * zx_rights_t) ->
                             gmap handle_ref (kobj * zx_rights_t))
    (k : kernel) :=
  {| objects := objects k; handle_table := handle_table k;
     unowned := f (unowned k); vectors := vectors k;
     user_memory := user_memory k |}.

Definition with_vectors (f : gmap Z kobj -> gmap Z kobj) (k : kernel) :=
  {| objects := objects k; handle_table := handle_table k;
     unowned := unowned k; vectors := f (vectors k);
     user_memory := user_memory k |}.

Definition with_user_memory (f : gmap user_ptr Z -> gmap user_ptr Z)
    (k : kernel) :=
  {| objects := objects k; handle_table := handle_table k;
     unowned := unowned k; vectors := vectors k;
     user_memory := f (user_memory k) |}.

(** Modelled from the spec: the resource validator.  The handle must
    resolve to a resource (InvalidHandle otherwise); a root resource
    authorises everything; any other resource must be of the required
    kind (WrongKind, reported as access denied) and, when a range is
    asked for, contain it (OutOfRange).  No side effect. *)
Definition validate (k : kernel) (hrsrc : zx_handle_t) (required : rsrc_kind)
    (range : option (Z * Z)) : zx_status_t :=
  match handle_table k !! hrsrc with
  | None => ZX_ERR_BAD_HANDLE
  | Some (o, _) =>
      match objects k !! o with
      | Some (Resource kind base size, _) =>
          if decide (kind = ZX_RSRC_KIND_ROOT) then ZX_OK
          else if decide (kind = required) then
            match range with
            | None => ZX_OK
            | Some (b, sz) =>
                if (base <=? b) && (b + sz <=? base + size) then ZX_OK
                else ZX_ERR_OUT_OF_RANGE
            end
          else ZX_ERR_ACCESS_DENIED
      | _ => ZX_ERR_BAD_HANDLE
      end
  end.

(** Modelled from the spec: typed lookup in the handle table.  A value
    that is absent is NotFound, an object of another variant is
    WrongType; on success the caller holds a transient strong reference
    for the duration of the call. *)
Definition lookup (k : kernel) (ty : dispatcher_type) (h : zx_handle_t)
    : (zx_status_t * RefPtr) * kernel :=
  match handle_table k !! h with
  | None => ((ZX_ERR_BAD_HANDLE, None), k)
  | Some (o, _) =>
      match objects k !! o with
      | None => ((ZX_ERR_BAD_HANDLE, None), k)
      | Some (d, refs) =>
          if decide (type_of d = ty)
          then ((ZX_OK, Some o), with_objects <[o := (d, Pos.succ refs)]> k)
          else ((ZX_ERR_WRONG_TYPE, None), k)
      end
  end.

(** Modelled from the spec: an object lives until its last holder
    releases it; with it go the vectors it had claimed. *)
Definition release (o : kobj) (k : kernel) : kernel :=
  match objects k !! o with
  | None => k
  | Some (d, refs) =>
      if decide (refs = 1%positive)
      then with_vectors (filter (fun kv => kv.2 <> o))
             (with_objects (delete o) k)
      else with_objects <[o := (d, Pos.pred refs)]> k
  end.

(** Modelled from the spec: [create] of the handle table, in the three
    steps the system calls take.  Making a handle takes over the
    caller's reference and picks a value not in use; installing it
    moves it into the table under that value; a handle that is destroyed
    before it was installed releases its reference. *)
Definition make_handle (d : RefPtr) (rights : zx_rights_t) (k : kernel)
    : HandleOwner * kernel :=
  match d with
  | None => (None, k)
  | Some o =>
      let h := fresh (dom (handle_table k) ∪ dom (unowned k)) in
      (Some h, with_unowned <[h := (o, rights)]> k)
  end.

Definition add_handle (h : HandleOwner) (k : kernel) : kernel :=
  match h with
  | None => k
  | Some r =>
      match unowned k !! r with
      | None => k
      | Some entry =>
          with_handle_table <[r := entry]> (with_unowned (delete r) k)
      end
  end.

Definition destroy_handle (r : handle_ref) (k : kernel) : kernel :=
  match unowned k !! r with
  | None => k
  | Some (o, _) => release o (with_unowned (delete r) k)
  end.

(** Modelled from the spec: user memory is an external collaborator; a
    copy to it succeeds on a mapped address and fails on any other. *)
Definition write_user (ptr : user_ptr) (v : Z) (k : kernel)
    : zx_status_t * kernel :=
  match user_memory k !! ptr with
  | Some _ => (ZX_OK, with_user_memory <[ptr := v]> k)
  | None => (ZX_ERR_INVALID_ARGS, k)
  end.

(** Modelled from the spec: the rights [Create] of the interrupt
    dispatcher hands out with the object; the spec leaves their value
    open and it plays no role here. *)
Definition DEFAULT_INTERRUPT_RIGHTS : zx_rights_t := 0.

(** Modelled from the spec: [Create] of the interrupt dispatcher -- a new
    object, every slot idle, no hardware side effect, one reference, held
    by the caller. *)
Definition interrupt_new (MAX_SLOTS : nat) (k : kernel)
    : (zx_status_t * RefPtr * zx_rights_t) * kernel :=
  let o := fresh (dom (objects k)) in
  ((ZX_OK, Some o, DEFAULT_INTERRUPT_RIGHTS),
   with_objects <[o := (Interrupt (replicate MAX_SLOTS idle_slot), 1%positive)]> k).

(** The slots of interrupt object [o], when it is one. *)
Definition slots_of (k : kernel) (o : kobj) : option (list slot) :=
  match objects k !! o with
  | Some (Interrupt slots, _) => Some slots
  | _ => None
  end.

(** Replace the slots of interrupt object [o], keeping its references. *)
Definition set_slots (o : kobj) (slots : list slot) (k : kernel) : kernel :=
  with_objects (alter (fun e => (Interrupt slots, e.2)) o) k.

(** Modelled from the spec: [Bind].  InvalidArgs when the slot is out of
    range or bound to a different vector; AlreadyBound when another
    interrupt object has claimed the vector; binding a slot again to the
    vector it has is a successful no-op.  Otherwise the vector is
    claimed for the object and the slot becomes BOUND. *)
Definition interrupt_bind_slot (o : kobj) (slot vector : Z) (k : kernel)
    : zx_status_t * kernel :=
  match slots_of k o with
  | None => (ZX_ERR_WRONG_TYPE, k)
  | Some slots =>
      if slot <? 0 then (ZX_ERR_INVALID_ARGS, k) else
      match slots !! Z.to_nat slot with
      | None => (ZX_ERR_INVALID_ARGS, k)
      | Some sl =>
          if decide (slot_st sl <> IDLE /\ slot_vector sl <> vector)
          then (ZX_ERR_INVALID_ARGS, k)
          else
            match vectors k !! vector with
            | Some owner =>
                if decide (owner = o)
                then if decide (slot_st sl = IDLE)
                     then (ZX_OK,
                           set_slots o (<[Z.to_nat slot :=
                                          {| slot_vector := vector; slot_st := BOUND;
                                             pending_timestamp := 0 |}]> slots) k)
                     else (ZX_OK, k)
                else (ZX_ERR_ALREADY_BOUND, k)
            | None =>
                (ZX_OK,
                 with_vectors <[vector := o]>
                   (set_slots o (<[Z.to_nat slot :=
                                   {| slot_vector := vector; slot_st := BOUND;
                                      pending_timestamp := 0 |}]> slots) k))
            end
      end
  end.

(** Modelled from the spec: [Unbind] reverses [Bind]; NotBound (reported
    as a bad state) when the slot is not bound. *)
Definition interrupt_unbind_slot (o : kobj) (slot : Z) (k : kernel)
    : zx_status_t * kernel :=
  match slots_of k o with
  | None => (ZX_ERR_WRONG_TYPE, k)
  | Some slots =>
      if slot <? 0 then (ZX_ERR_BAD_STATE, k) else
      match slots !! Z.to_nat slot with
      | None => (ZX_ERR_BAD_STATE, k)
      | Some sl =>
          if decide (slot_st sl = IDLE) then (ZX_ERR_BAD_STATE, k)
          else (ZX_OK,
                with_vectors (delete (slot_vector sl))
                  (set_slots o (<[Z.to_nat slot := idle_slot]> slots) k))
      end
  end.

(** Modelled from the spec: [UserSignal] has the effect of the hardware
    interrupt, with the caller's timestamp: the slot records the
    timestamp and becomes SIGNALED; NotBound when the slot is unbound. *)
Definition interrupt_user_signal (o : kobj) (slot : Z) (timestamp : zx_time_t)
    (k : kernel) : zx_status_t * kernel :=
  match slots_of k o with
  | None => (ZX_ERR_WRONG_TYPE, k)
  | Some slots =>
      if slot <? 0 then (ZX_ERR_BAD_STATE, k) else
      match slots !! Z.to_nat slot with
      | None => (ZX_ERR_BAD_STATE, k)
      | Some sl =>
          if decide (slot_st sl = IDLE) then (ZX_ERR_BAD_STATE, k)
          else (ZX_OK,
                set_slots o (<[Z.to_nat slot :=
                               {| slot_vector := slot_vector sl; slot_st := SIGNALED;
                                  pending_timestamp := timestamp |}]> slots) k)
      end
  end.

(** Modelled from the spec: consuming the signal of a slot brings it
    back to BOUND. *)
Definition consume (sl : slot) : slot :=
  {| slot_vector := slot_vector sl; slot_st := BOUND;
     pending_timestamp := pending_timestamp sl |}.

(** Modelled from the spec: [WaitForInterruptWithTimeStamp].  When a
    slot is SIGNALED at the time of the call it returns at once with the
    slot and its timestamp, and the slot is BOUND again; otherwise the
    thread blocks ([None]). *)
Definition interrupt_wait_timestamp (o : kobj) (k : kernel)
    : option (zx_status_t * Z * zx_time_t) * kernel :=
  match slots_of k o with
  | None => (Some (ZX_ERR_WRONG_TYPE, 0, 0), k)
  | Some slots =>
      match list_find (fun sl => slot_st sl = SIGNALED) slots with
      | None => (None, k)
      | Some (i, sl) =>
          (Some (ZX_OK, Z.of_nat i, pending_timestamp sl),
           set_slots o (<[i := consume sl]> slots) k)
      end
  end.

(** The mask of the signalled slots, bit [i] for slot [i]. *)
Fixpoint signalled_mask (slots : list slot) (i : Z) : Z :=
  match slots with
  | [] => 0
  | sl :: rest =>
      Z.lor (if decide (slot_st sl = SIGNALED) then Z.shiftl 1 i else 0)
            (signalled_mask rest (i + 1))
  end.

(** Consume the signal of a slot that has one. *)
Definition consume_if_signalled (sl : slot) : slot :=
  if decide (slot_st sl = SIGNALED) then consume sl else sl.

(** Modelled from the spec: [WaitForInterrupt], the same with the mask
    of all signalled slots, which it consumes. *)
Definition interrupt_wait_mask (o : kobj) (k : kernel)
    : option (zx_status_t * Z) * kernel :=
  match slots_of k o with
  | None => (Some (ZX_ERR_WRONG_TYPE, 0), k)
  | Some slots =>
      if signalled_mask slots 0 =? 0 then (None, k)
      else (Some (ZX_OK, signalled_mask slots 0),
            set_slots o (consume_if_signalled <$> slots) k)
  end.

(** Modelled from the spec: the components above as one handler. *)
Definition kernel_handler (MAX_SLOTS : nat) (ext : handler kernel)
    : handler kernel :=
  fun X c =>
    match c in ddkE X return kernel -> X * kernel with
    | validate_resource hrsrc kind => fun k => (validate k hrsrc kind None, k)
    | validate_resource_mmio hrsrc paddr size => fun k =>
        (validate k hrsrc ZX_RSRC_KIND_MMIO (Some (paddr, size)), k)
    | Handle_Make d rights => make_handle d rights
    | MapHandleToValue h => fun k => (default 0 h, k)
    | AddHandle h => fun k => (tt, add_handle h k)
    | GetDispatcher ty h => fun k => lookup k ty h
    | RefPtr_release o => fun k => (tt, release o k)
    | HandleOwner_destroy r => fun k => (tt, destroy_handle r k)
    | copy_to_user ptr v => write_user ptr v
    | InterruptEventDispatcher_Create => interrupt_new MAX_SLOTS
    | Bind o slot vector _ => interrupt_bind_slot o slot vector
    | Unbind o slot => interrupt_unbind_slot o slot
    | WaitForInterrupt o => interrupt_wait_mask o
    | WaitForInterruptWithTimeStamp o => interrupt_wait_timestamp o
    | UserSignal o slot ts => interrupt_user_signal o slot ts
    | c' => ext _ c'
    end.

(** A kernel right after boot, as the first driver process sees it: the
    root resource under handle 5 and two mapped words of user memory. *)
Definition boot_kernel : kernel :=
  {| objects := {[ 1 := (Resource ZX_RSRC_KIND_ROOT 0 0, 1%positive) ]};
     handle_table := {[ 5 := (1, 0) ]};
     unowned := ∅;
     vectors := ∅;
     user_memory := {[ 0x2000 := 0; 0x2008 := 0; 0x2010 := 0 ]} |}.

(** The open part of the kernel, for running examples: every call to it
    succeeds and leaves the state alone. *)
Definition no_ext : handler kernel := fun X c k => (fst (mock ZX_OK 0 X c 0%nat), k).

Arguments validate : simpl never.
Arguments lookup : simpl never.
Arguments release : simpl never.
Arguments make_handle : simpl never.
Arguments add_handle : simpl never.
Arguments destroy_handle : simpl never.
Arguments write_user : simpl never.
Arguments interrupt_new : simpl never.
Arguments interrupt_bind_slot : simpl never.
Arguments interrupt_unbind_slot : simpl never.
Arguments interrupt_user_signal : simpl never.
Arguments interrupt_wait_timestamp : simpl never.
Arguments interrupt_wait_mask : simpl never.

(** A driver process that holds, besides the root resource, an interrupt
    object under handle 6. *)
Definition driver_kernel : kernel :=
  {| objects := {[ 1 := (Resource ZX_RSRC_KIND_ROOT 0 0, 1%positive);
                   2 := (Interrupt (replicate 4 idle_slot), 1%positive) ]};
     handle_table := {[ 5 := (1, 0); 6 := (2, 0) ]};
     unowned := ∅;
     vectors := ∅;
     user_memory := {[ 0x2000 := 0; 0x2008 := 0; 0x2010 := 0 ]} |}.

(** The state a successful [sys_interrupt_create] leaves: a new
    interrupt object with every slot idle and one reference, held by the
    new handle, whose value has been written to the caller. *)
Definition created (MAX_SLOTS : nat) (k : kernel) (out : user_ptr) : kernel :=
  let o := fresh (dom (objects k)) in
  let hv := fresh (dom (handle_table k) ∪ dom (unowned k)) in
  {| objects := <[o := (Interrupt (replicate MAX_SLOTS idle_slot), 1%positive)]>
                  (objects k);
     handle_table := <[hv := (o, DEFAULT_INTERRUPT_RIGHTS)]> (handle_table k);
     unowned := delete hv (<[hv := (o, DEFAULT_INTERRUPT_RIGHTS)]> (unowned k));
     vectors := vectors k;
     user_memory := <[out := hv]> (user_memory k) |}.

(** The slot [Bind] makes for a vector, and the slot [UserSignal] makes
    of a bound one. *)
Definition bound_slot (vector : Z) : slot :=
  {| slot_vector := vector; slot_st := BOUND; pending_timestamp := 0 |}.

Definition signalled_slot (sl : slot) (timestamp : zx_time_t) : slot :=
  {| slot_vector := slot_vector sl; slot_st := SIGNALED;
     pending_timestamp := timestamp |}.

(** ** The paths of a program

    What a run can look like does not depend on the handler: a handler
    only picks, at every call, one of the answers the call can give.
    [paths p Q] says that [Q] holds of the trace and of the way the
    program ends along every path through [p]. *)
Inductive ending (R : Type) : Type :=
| Returns (r : R)
| Faults
| Suspends.

Arguments Returns {R} r.
Arguments Faults {R}.
Arguments Suspends {R}.

Definition ending_of {R St} (o : outcome R St) : ending R :=
  match o with
  | Returned r _ => Returns r
  | Faulted _ => Faults
  | Suspended _ => Suspends
  end.

Fixpoint paths {R} (p : prog R) (Q : list event -> ending R -> Prop) : Prop :=
  match p with
  | Ret r => Q [] (Returns r)
  | Fault => Q [] Faults
  | Suspend => Q [] Suspends
  | Vis c k => forall x, paths (k x) (fun tr l => Q (Ev c x :: tr) l)
  end.

(** The references to kernel objects an event hands to the system call
    (a lookup, a creation, an accessor that answers non-null) and the
    ones it takes from it (a release, or a call the pointer is moved
    into). *)
Definition acquires (e : event) : list kobj :=
  match e with
  | Ev c x =>
      match c in ddkE X return X -> list kobj with
      | GetDispatcher _ _ => fun r => option_list (snd r)
      | InterruptEventDispatcher_Create => fun r => option_list (snd (fst r))
      | VmObjectPaged_Create _ _ => fun r => option_list (snd r)
      | VmObjectPhysical_Create _ _ => fun r => option_list (snd r)
      | VmObjectDispatcher_Create _ => fun r => option_list (snd (fst r))
      | VmObjectDispatcher_vmo _ => fun r => option_list r
      | _ => fun _ => []
      end x
  end.

Definition consumes (e : event) : list kobj :=
  match e with
  | Ev (RefPtr_release o) _ => [o]
  | Ev (Handle_Make d _) _ => option_list d
  | Ev (VmObjectDispatcher_Create vmo) _ => option_list vmo
  | Ev (udisplay_set_framebuffer_vmo vmo) _ => option_list vmo
  | _ => []
  end.

(** The handles an event makes, and the ones it installs or destroys. *)
Definition makes_handle (e : event) : list handle_ref :=
  match e with
  | Ev c x =>
      match c in ddkE X return X -> list handle_ref with
      | Handle_Make _ _ => fun h => option_list h
      | _ => fun _ => []
      end x
  end.

Definition installs_handle (e : event) : list handle_ref :=
  match e with
  | Ev (AddHandle h) _ => option_list h
  | _ => []
  end.

Definition destroys_handle (e : event) : list handle_ref :=
  match e with
  | Ev (HandleOwner_destroy h) _ => [h]
  | _ => []
  end.

(** The steps by which a system call hands a new handle to its caller,
    as they show in a trace. *)
Inductive handle_step :=
| Made (h : HandleOwner)
| Named (h : HandleOwner) (value : zx_handle_t)
| Wrote (ptr : user_ptr) (value : Z) (status : zx_status_t)
| Installed (h : HandleOwner)
| Destroyed (h : handle_ref).

Definition handle_step_of (e : event) : option handle_step :=
  match e with
  | Ev c x =>
      match c in ddkE X return X -> option handle_step with
      | Handle_Make _ _ => fun h => Some (Made h)
      | MapHandleToValue h => fun v => Some (Named h v)
      | copy_to_user ptr v => fun st => Some (Wrote ptr v st)
      | AddHandle h => fun _ => Some (Installed h)
      | HandleOwner_destroy h => fun _ => Some (Destroyed h)
      | _ => fun _ => None
      end x
  end.

(** The pointer through which a system call reports a new handle. *)
Definition handle_out (sc : syscall) : option user_ptr :=
  match sc with
  | interrupt_create _ _ out | vmo_create_contiguous _ _ _ out
  | vmo_create_physical _ _ _ out => Some out
  | _ => None
  end.

(** What a typed lookup handed back. *)
Definition lookup_answer (e : event) : option (zx_status_t * RefPtr) :=
  match e with
  | Ev c x =>
      match c in ddkE X return X -> option (zx_status_t * RefPtr) with
      | GetDispatcher _ _ => fun r => Some r
      | _ => fun _ => None
      end x
  end.

(** The status a creation call handed back: of the interrupt
    dispatcher, of a VM object, of the dispatcher of a VM object. *)
Definition creation_status (e : event) : option zx_status_t :=
  match e with
  | Ev c x =>
      match c in ddkE X return X -> option zx_status_t with
      | InterruptEventDispatcher_Create => fun r => Some (fst (fst r))
      | VmObjectPaged_Create _ _ => fun r => Some (fst r)
      | VmObjectPhysical_Create _ _ => fun r => Some (fst r)
      | VmObjectDispatcher_Create _ => fun r => Some (fst (fst r))
      | _ => fun _ => None
      end x
  end.




(** A write to user memory: address, value, status. *)
Definition user_write (e : event) : option (user_ptr * Z * zx_status_t) :=
  match e with
  | Ev c x =>
      match c in ddkE X return X -> option (user_ptr * Z * zx_status_t) with
      | copy_to_user ptr v => fun st => Some (ptr, v, st)
      | _ => fun _ => None
      end x
  end.

(** [written expected w final]: the writes [w] are the expected ones, in
    order, up to and including the first that failed, and [final] is the
    status of that one, or [ZX_OK] when all were made and none failed. *)
Fixpoint written (expected : list (user_ptr * Z))
    (w : list (user_ptr * Z * zx_status_t)) (final : zx_status_t) : Prop :=
  match expected with
  | [] => w = [] /\ final = ZX_OK
  | pv :: rest =>
      exists st w', w = (pv, st) :: w' /\
        if st =? ZX_OK then written rest w' final
        else w' = [] /\ final = st
  end.

(** What the two wait calls handed back, as the status and the values
    to report. *)
Definition wait_answer (e : event) : option (option (zx_status_t * list Z)) :=
  match e with
  | Ev c x =>
      match c in ddkE X return X -> option (option (zx_status_t * list Z)) with
      | WaitForInterrupt _ => fun r =>
          Some (match r with Some (st, slots) => Some (st, [slots]) | None => None end)
      | WaitForInterruptWithTimeStamp _ => fun r =>
          Some (match r with
                | Some (st, slot, ts) => Some (st, [slot; ts])
                | None => None
                end)
      | _ => fun _ => None
      end x
  end.

(** The out-pointers of a wait call, in the order of the values. *)
Definition wait_out (sc : syscall) : list user_ptr :=
  match sc with
  | interrupt_wait _ out_slots => [out_slots]
  | interrupt_wait_with_timestamp _ out_slot out_ts => [out_slot; out_ts]
  | _ => []
  end.

(** The writes a wait call owes: each value to its pointer, the null
    pointers left out. *)
Definition owed_writes (ptrs : list user_ptr) (values : list Z)
    : list (user_ptr * Z) :=
  filter (fun pv => pv.1 <> 0) (zip ptrs values).

(** What the address translator, the display driver and the IO bitmap
    were asked and answered. *)
Definition translation (e : event) : option (Z * Z) :=
  match e with
  | Ev c x =>
      match c in ddkE X return X -> option (Z * Z) with
      | vaddr_to_paddr vaddr => fun paddr => Some (vaddr, paddr)
      | _ => fun _ => None
      end x
  end.

Definition framebuffer_set (e : event) : option (Z * Z) :=
  match e with
  | Ev (udisplay_set_framebuffer paddr len) _ => Some (paddr, len)
  | _ => None
  end.

Definition framebuffer_vmo_set (e : event) : option (RefPtr * zx_status_t) :=
  match e with
  | Ev c x =>
      match c in ddkE X return X -> option (RefPtr * zx_status_t) with
      | udisplay_set_framebuffer_vmo vmo => fun st => Some (vmo, st)
      | _ => fun _ => None
      end x
  end.

Definition display_info_set (e : event) : option display_info :=
  match e with
  | Ev (udisplay_set_display_info di) _ => Some di
  | _ => None
  end.

Definition io_bitmap_set (e : event) : option (Z * Z * Z * zx_status_t) :=
  match e with
  | Ev c x =>
      match c in ddkE X return X -> option (Z * Z * Z * zx_status_t) with
      | SetIoBitmap io_addr len enable => fun st => Some (io_addr, len, enable, st)
      | _ => fun _ => None
      end x
  end.

(** The arguments of a contiguous commit: object, offset, length,
    alignment. *)
Definition commit_request (e : event) : option (kobj * Z * Z * Z) :=
  match e with
  | Ev (CommitRangeContiguous vmo offset len align) _ => Some (vmo, offset, len, align)
  | _ => None
  end.

(** What a validation was asked: the kind for the plain entry point, the
    range for the ranged one. *)
Definition validation_request (e : event)
    : option (zx_handle_t * (rsrc_kind + Z * Z)) :=
  match e with
  | Ev (validate_resource hrsrc kind) _ => Some (hrsrc, inl kind)
  | Ev (validate_resource_mmio hrsrc paddr size) _ => Some (hrsrc, inr (paddr, size))
  | _ => None
  end.

(** The request a system call makes of the validator, when it makes one. *)
Definition expected_validation (sc : syscall)
    : option (zx_handle_t * (rsrc_kind + Z * Z)) :=
  match sc with
  | vmo_create_physical hrsrc paddr size _ => Some (hrsrc, inr (paddr, size))
  | _ => (fun hrsrc => (hrsrc, inl ZX_RSRC_KIND_ROOT)) <$> resource_handle sc
  end.

(** A callee that reports success and hands back a null pointer. *)
Definition ok_with_null (e : event) : bool :=
  match e with
  | Ev c x =>
      match c in ddkE X return X -> bool with
      | GetDispatcher _ _ => fun r => (fst r =? ZX_OK) && bool_decide (snd r = None)
      | VmObjectPaged_Create _ _ => fun r => (fst r =? ZX_OK) && bool_decide (snd r = None)
      | _ => fun _ => false
      end x
  end.

(** Which system calls may make which calls. *)
Definition makes_handles (sc : syscall) : bool :=
  match sc with
  | interrupt_create _ _ _ | vmo_create_contiguous _ _ _ _
  | vmo_create_physical _ _ _ _ => true
  | _ => false
  end.

Definition resolves_handles (sc : syscall) : bool :=
  match sc with
  | interrupt_bind _ _ _ _ _ | interrupt_unbind _ _ | interrupt_complete _
  | interrupt_wait _ _ | interrupt_wait_with_timestamp _ _ _
  | interrupt_signal _ _ _ | set_framebuffer_vmo _ _ _ _ _ _ _ => true
  | _ => false
  end.

Definition drives_slots (sc : syscall) : bool :=
  match sc with
  | interrupt_bind _ _ _ _ _ | interrupt_unbind _ _
  | interrupt_wait _ _ | interrupt_wait_with_timestamp _ _ _
  | interrupt_signal _ _ _ => true
  | _ => false
  end.

Definition allocates (sc : syscall) : bool :=
  match sc with
  | vmo_create_contiguous _ _ _ _ => true
  | _ => false
  end.

Definition drives_hardware (sc : syscall) : bool :=
  match sc with
  | set_framebuffer _ _ _ _ _ _ _ | set_framebuffer_vmo _ _ _ _ _ _ _
  | mmap_device_io _ _ _ => true
  | _ => false
  end.

Definition writes_to_user (sc : syscall) : bool :=
  match sc with
  | interrupt_create _ _ _ | vmo_create_contiguous _ _ _ _
  | vmo_create_physical _ _ _ _ | interrupt_wait _ _
  | interrupt_wait_with_timestamp _ _ _ | bootloader_fb_get_info _ _ _ _ => true
  | _ => false
  end.

(** The four values [sys_bootloader_fb_get_info] reports, each with the
    pointer it goes to. *)
Definition fb_info_writes (cfg : Platform) (format width height stride : user_ptr)
    : list (user_ptr * Z) :=
  [(format, fb_format cfg); (width, fb_width cfg);
   (height, fb_height cfg); (stride, fb_stride cfg)].

(** What the accessor of a VM-object dispatcher was asked and answered. *)
Definition accessor_answer (e : event) : option (kobj * RefPtr) :=
  match e with
  | Ev c x =>
      match c in ddkE X return X -> option (kobj * RefPtr) with
      | VmObjectDispatcher_vmo d => fun vmo => Some (d, vmo)
      | _ => fun _ => None
      end x
  end.

(** The pointers a system call may write through. *)
Definition out_pointers (sc : syscall) : list user_ptr :=
  match sc with
  | interrupt_create _ _ out | vmo_create_contiguous _ _ _ out
  | vmo_create_physical _ _ _ out => [out]
  | interrupt_wait _ out_slots => [out_slots]
  | interrupt_wait_with_timestamp _ out_slot out_ts => [out_slot; out_ts]
  | bootloader_fb_get_info format width height stride =>
      [format; width; height; stride]
  | _ => []
  end.

(** A stand-in for the components whose answers are scripted: one
    answer for each family of calls.  Its state counts the calls. *)
Record script := {
  on_validation : zx_status_t;
  on_lookup : zx_status_t * RefPtr;
  on_creation : zx_status_t * RefPtr;
  on_make : HandleOwner;
  on_copy : zx_status_t;
  on_operation : zx_status_t;
  on_wait : option zx_status_t;
}.

Definition scripted (a : script) : handler nat :=
  fun X c n =>
    (match c in ddkE X return X with
     | validate_resource _ _ => on_validation a
     | validate_resource_mmio _ _ _ => on_validation a
     | Handle_Make _ _ => on_make a
     | MapHandleToValue _ => 0x1003
     | AddHandle _ => tt
     | GetDispatcher _ _ => on_lookup a
     | RefPtr_release _ => tt
     | HandleOwner_destroy _ => tt
     | copy_to_user _ _ => on_copy a
     | InterruptEventDispatcher_Create => (on_creation a, 0)
     | Bind _ _ _ _ => on_operation a
     | Unbind _ _ => on_operation a
     | WaitForInterrupt _ => (fun st => (st, 5)) <$> on_wait a
     | WaitForInterruptWithTimeStamp _ => (fun st => (st, 0, 777)) <$> on_wait a
     | UserSignal _ _ _ => on_operation a
     | VmObjectPaged_Create _ _ => on_creation a
     | CommitRangeContiguous _ _ len _ => (on_operation a, len)
     | VmObjectPhysical_Create _ _ => on_creation a
     | VmObjectDispatcher_Create _ => (on_creation a, 0)
     | VmObjectDispatcher_vmo _ => Some 2
     | vaddr_to_paddr vaddr => vaddr
     | udisplay_set_framebuffer _ _ => on_operation a
     | udisplay_set_framebuffer_vmo _ => on_operation a
     | udisplay_set_display_info _ => tt
     | SetIoBitmap _ _ _ => on_operation a
     end, S n).

(** The status a callee answered, for the calls that answer one. *)
Definition answered_status (e : event) : option zx_status_t :=
  match e with
  | Ev c x =>
      match c in ddkE X return X -> option zx_status_t with
      | validate_resource _ _ => fun st => Some st
      | validate_resource_mmio _ _ _ => fun st => Some st
      | GetDispatcher _ _ => fun r => Some (fst r)
      | copy_to_user _ _ => fun st => Some st
      | InterruptEventDispatcher_Create => fun r => Some (fst (fst r))
      | Bind _ _ _ _ => fun st => Some st
      | Unbind _ _ => fun st => Some st
      | WaitForInterrupt _ => fun r => fst <$> r
      | WaitForInterruptWithTimeStamp _ => fun r => (fun a => fst (fst a)) <$> r
      | UserSignal _ _ _ => fun st => Some st
      | VmObjectPaged_Create _ _ => fun r => Some (fst r)
      | CommitRangeContiguous _ _ _ _ => fun r => Some (fst r)
      | VmObjectPhysical_Create _ _ => fun r => Some (fst r)
      | VmObjectDispatcher_Create _ => fun r => Some (fst (fst r))
      | udisplay_set_framebuffer _ _ => fun st => Some st
      | udisplay_set_framebuffer_vmo _ => fun st => Some st
      | SetIoBitmap _ _ _ => fun st => Some st
      | _ => fun _ => None
      end x
  end.

(** The system calls whose return type is [zx_status_t];
    [sys_acpi_uefi_rsdp] returns a [uint64_t]. *)
Definition returns_status (sc : syscall) : bool :=
  match sc with
  | acpi_uefi_rsdp _ => false
  | _ => true
  end.

(** ** Properties *)

(** *** Sample runs *)

Example vmo_create_contiguous_run :
  run (mock ZX_OK 8192) (sys pc_x86 (vmo_create_contiguous 5 5000 0 0x2000)) 0%nat
  = (Returned ZX_OK 8%nat,
     [Ev (validate_resource 5 ZX_RSRC_KIND_ROOT) ZX_OK;
      Ev (VmObjectPaged_Create PMM_ALLOC_FLAG_ANY 8192) (ZX_OK, Some 2);
      Ev (CommitRangeContiguous 2 0 8192 12) (ZX_OK, 8192);
      Ev (VmObjectDispatcher_Create (Some 2)) (ZX_OK, Some 3, 0);
      Ev (Handle_Make (Some 3) 0) (Some 7);
      Ev (MapHandleToValue (Some 7)) 0x1003;
      Ev (copy_to_user 0x2000 0x1003) ZX_OK;
      Ev (AddHandle (Some 7)) tt]).
Proof. reflexivity. Qed.

Example set_framebuffer_run :
  run (mock ZX_OK 0) (sys arm64 (set_framebuffer 5 0x4000 0x300000 4 1024 768 1024)) 0%nat
  = (Returned ZX_OK 4%nat,
     [Ev (validate_resource 5 ZX_RSRC_KIND_ROOT) ZX_OK;
      Ev (vaddr_to_paddr 0x4000) 0x4000;
      Ev (udisplay_set_framebuffer 0x4000 0x300000) ZX_OK;
      Ev (udisplay_set_display_info (display_info_of 4 1024 768 1024)) tt]).
Proof. reflexivity. Qed.

Example set_framebuffer_denied :
  run (mock ZX_ERR_ACCESS_DENIED 0)
    (sys arm64 (set_framebuffer 5 0x4000 0x300000 4 1024 768 1024)) 0%nat
  = (Returned ZX_ERR_ACCESS_DENIED 1%nat,
     [Ev (validate_resource 5 ZX_RSRC_KIND_ROOT) ZX_ERR_ACCESS_DENIED]).
Proof. reflexivity. Qed.

Example interrupt_create_bad_options :
  run (mock ZX_OK 0) (sys pc_x86 (interrupt_create 5 1 0x2000)) 0%nat
  = (Returned ZX_ERR_INVALID_ARGS 0%nat, []).
Proof. reflexivity. Qed.

(** *** Platform switches *)

(** C10. On a target that is not x86, [sys_mmap_device_io] answers
    [ZX_ERR_NOT_SUPPORTED] whatever its arguments and whatever the
    components would say: it makes no call at all, so the resource
    handle is never looked at and the state is the one it started in. *)
Theorem mmap_device_io_not_supported
    (cfg : Platform) {St} (hd : handler St) (s : St) (hrsrc io_addr len : Z) :
  ARCH_X86 cfg = false ->
  run hd (sys cfg (mmap_device_io hrsrc io_addr len)) s
  = (Returned ZX_ERR_NOT_SUPPORTED s, []).
Proof.
  intros Harch. simpl. unfold sys_mmap_device_io. rewrite Harch. reflexivity.
Qed.

Lemma mmap_device_io_not_supported_witness :
  ARCH_X86 arm64 = false /\
  run (mock ZX_ERR_ACCESS_DENIED 0) (sys arm64 (mmap_device_io 0 0x3f8 8)) 0%nat
  = (Returned ZX_ERR_NOT_SUPPORTED 0%nat, []).
Proof.
  split; [reflexivity|].
  apply (mmap_device_io_not_supported arm64 (mock ZX_ERR_ACCESS_DENIED 0)).
  reflexivity.
Defined.

(** C6, as stated, fails on x86: with no framebuffer base the call
    answers [ZX_ERR_INVALID_ARGS], not [ZX_ERR_NOT_SUPPORTED]. *)
Lemma bootloader_fb_get_info_headless_x86 :
  no_boot_framebuffer pc_headless /\
  run (mock ZX_OK 0) (sys pc_headless (bootloader_fb_get_info 16 20 24 28)) 0%nat
  = (Returned ZX_ERR_INVALID_ARGS 0%nat, []) /\
  ZX_ERR_INVALID_ARGS <> ZX_ERR_NOT_SUPPORTED.
Proof. split; [right; reflexivity|]. split; [reflexivity|discriminate]. Qed.

(** C6, amended.  Without a boot framebuffer [sys_bootloader_fb_get_info]
    writes none of its four out-values (it makes no call at all) and
    answers [ZX_ERR_NOT_SUPPORTED] when the target is not x86 and
    [ZX_ERR_INVALID_ARGS] on x86 with no framebuffer base. *)
Theorem bootloader_fb_get_info_no_framebuffer
    (cfg : Platform) {St} (hd : handler St) (s : St)
    (format width height stride : user_ptr) :
  no_boot_framebuffer cfg ->
  run hd (sys cfg (bootloader_fb_get_info format width height stride)) s
  = (Returned (if ARCH_X86 cfg then ZX_ERR_INVALID_ARGS
               else ZX_ERR_NOT_SUPPORTED) s, []).
Proof.
  intros Hno. simpl. unfold sys_bootloader_fb_get_info.
  destruct (ARCH_X86 cfg) eqn:Harch; [|reflexivity].
  destruct Hno as [Hno | Hbase]; [congruence|].
  rewrite Hbase. reflexivity.
Qed.

Lemma bootloader_fb_get_info_no_framebuffer_witness :
  no_boot_framebuffer arm64 /\
  run (mock ZX_OK 0) (sys arm64 (bootloader_fb_get_info 16 20 24 28)) 0%nat
  = (Returned ZX_ERR_NOT_SUPPORTED 0%nat, []).
Proof.
  assert (H : no_boot_framebuffer arm64) by (left; reflexivity).
  split; [exact H|].
  exact (bootloader_fb_get_info_no_framebuffer arm64 (mock ZX_OK 0) 0%nat 16 20 24 28 H).
Defined.

(** *** Validation and what follows it *)

Lemma validation_status_is_validation e status :
  validation_status e = Some status -> is_validation e = true.
Proof. destruct e as [X c x]; destruct c; simpl; congruence. Qed.

Lemma never_trace (P : call_class) {St} (hd : handler St) {R} (p : prog R) :
  never P p ->
  forall s e, e ∈ trace hd p s -> on P e = false.
Proof.
  unfold trace. induction p as [r| | |X c k IH]; simpl; intros Hp s e He;
    try (apply elem_of_nil in He; contradiction).
  destruct Hp as [Hc Hk].
  apply elem_of_cons in He as [-> | He]; [exact Hc|].
  exact (IH _ (Hk _) _ _ He).
Qed.

Lemma never_Forall (P : call_class) {St} (hd : handler St) {R} (p : prog R) s :
  never P p -> Forall (fun e => on P e = false) (trace hd p s).
Proof.
  intros Hp. apply Forall_forall. intros e He.
  exact (never_trace P hd p Hp s e He).
Qed.

Lemma no_validation_trace {St} (hd : handler St) {R} (p : prog R) :
  no_validation p ->
  forall s e, e ∈ trace hd p s -> is_validation e = false.
Proof. apply never_trace. Qed.

Lemma validates_then_run {St} (hd : handler St) {R} hrsrc
    (ret : zx_status_t -> R) (p : prog R) (s : St) :
  validates_then hrsrc ret p ->
  exists e status,
    validated_handle e = Some hrsrc /\
    validation_status e = Some status /\
    run hd p s
    = (if status <? 0 then (Returned (ret status) (state_after hd e s), [e])
       else (fst (run hd p s), e :: tail (trace hd p s))) /\
    Forall (fun e' => is_validation e' = false) (tail (trace hd p s)).
Proof.
  intros [kind k Hk | paddr size k Hk]; unfold trace; simpl;
    match goal with
    | |- context [hd ?X ?c s] =>
        specialize (Hk (fst (hd X c s))); exists (Ev c (fst (hd X c s)));
        exists (fst (hd X c s)); simpl; destruct (fst (hd X c s) <? 0)
    end;
    (split; [reflexivity|]; split; [reflexivity|]; split;
     [ try rewrite Hk; reflexivity
     | try rewrite Hk; try (apply Forall_nil_2);
       apply Forall_forall; intros e' He';
       exact (no_validation_trace hd _ Hk _ _ He') ]).
Qed.

Ltac shape_step :=
  match goal with
  | |- True => exact I
  | |- no_validation _ => unfold no_validation
  | |- context [drop ?r] => is_var r; destruct r
  | |- context [drop_handle ?h] => is_var h; destruct h
  | |- never _ (match ?x with _ => _ end) => destruct x
  | |- never _ (if ?b then _ else _) => destruct b
  | |- never _ (_ ≫= _) => progress simpl
  | |- never _ (mbind _ (if ?b then _ else _)) => destruct b
  | |- never _ _ => simpl; try split; try reflexivity; try exact I
  | |- forall _, _ => intro
  | |- _ /\ _ => split
  | |- _ = _ => reflexivity
  end.

Ltac shape := repeat shape_step.

Lemma vmo_handle_out_no_validation vmo _out :
  no_validation (vmo_handle_out vmo _out).
Proof. unfold vmo_handle_out. shape. Qed.

Ltac validated :=
  right; constructor; intros st; destruct (st <? 0); [reflexivity|].

Ltac returns := left; eexists; reflexivity.

(** A system call that takes a resource handle either returns on an
    argument or platform check before any call, or starts by validating
    that handle; the others never validate. *)
Lemma sys_shape (cfg : Platform) (sc : syscall) :
  match resource_handle sc with
  | Some hrsrc =>
      (exists r, sys cfg sc = Ret r) \/
      validates_then hrsrc (failure_return sc) (sys cfg sc)
  | None => no_validation (sys cfg sc)
  end.
Proof.
  destruct sc; cbn [sys failure_return resource_handle].
  - unfold sys_interrupt_create. destruct (negb (options =? 0)); [returns|].
    validated. shape.
  - unfold sys_interrupt_bind. validated. shape.
  - unfold sys_interrupt_unbind. shape.
  - unfold sys_interrupt_complete. shape.
  - unfold sys_interrupt_wait. shape.
  - unfold sys_interrupt_wait_with_timestamp. shape.
  - unfold sys_interrupt_signal. shape.
  - unfold sys_vmo_create_contiguous.
    destruct (size =? 0); [returns|].
    match goal with |- context [if ?b then Ret ZX_ERR_INVALID_ARGS else _] =>
      destruct b end; [returns|].
    validated. shape; apply vmo_handle_out_no_validation.
  - unfold sys_vmo_create_physical. validated.
    shape; apply vmo_handle_out_no_validation.
  - unfold sys_bootloader_fb_get_info. shape.
  - unfold sys_set_framebuffer. validated. shape.
  - unfold sys_set_framebuffer_vmo. validated. shape.
  - unfold sys_mmap_device_io. destruct (ARCH_X86 cfg); [|returns].
    validated. shape.
  - unfold sys_acpi_uefi_rsdp. validated. destruct (ARCH_X86 cfg); exact I.
Qed.

Lemma validation_effect_free e : is_validation e = true -> effect_free e.
Proof.
  destruct e as [X c x]; destruct c; simpl; try discriminate;
    intros _; repeat split.
Qed.

(** A failed validation is the only call of the system call, which
    returns its status from the state the validator left. *)
Lemma validation_failure_is_only_call
    (cfg : Platform) {St} (hd : handler St) (sc : syscall) (s : St)
    (e : event) (status : zx_status_t) :
  e ∈ trace hd (sys cfg sc) s ->
  validation_status e = Some status ->
  status < 0 ->
  result hd (sys cfg sc) s
  = Returned (failure_return sc status) (state_after hd e s) /\
  trace hd (sys cfg sc) s = [e].
Proof.
  intros He Hst Hneg.
  assert (Hv := validation_status_is_validation _ _ Hst).
  assert (Hrun : run hd (sys cfg sc) s
                 = (Returned (failure_return sc status) (state_after hd e s), [e])).
  { pose proof (sys_shape cfg sc) as Hshape.
    destruct (resource_handle sc) as [hrsrc|].
    - destruct Hshape as [[r Hr] | Hvt].
      + unfold trace in He. rewrite Hr in He. simpl in He.
        apply elem_of_nil in He. contradiction.
      + destruct (validates_then_run hd hrsrc _ _ s Hvt)
          as (e0 & st0 & _ & Hst0 & Hrun & Hrest).
        destruct (st0 <? 0) eqn:Hlt.
        * unfold trace in He. rewrite Hrun in He. simpl in He.
          apply list_elem_of_singleton in He. subst e0.
          rewrite Hst in Hst0. injection Hst0 as <-. exact Hrun.
        * unfold trace in He. rewrite Hrun in He. simpl in He.
          apply elem_of_cons in He as [-> | He].
          -- rewrite Hst in Hst0. injection Hst0 as <-.
             apply Z.ltb_ge in Hlt. lia.
          -- rewrite Forall_forall in Hrest. apply Hrest in He. congruence.
    - apply (no_validation_trace hd _ Hshape) in He. congruence. }
  unfold result, trace. rewrite Hrun. split; reflexivity.
Qed.

(** C1. Whatever the system call and whatever the components do: when
    the resource validator is asked and answers with a negative status,
    the system call returns that status (through the [uint64_t]
    conversion of its return type in the case of [sys_acpi_uefi_rsdp]),
    the validation is the only call it has made -- no handle made or
    installed, no handle resolved, no dispatcher and no slot touched, no
    page allocated or committed, no display, IO-bitmap or user-memory
    call -- and the kernel state is the one the validator left. *)
Theorem validation_failure_has_no_effect
    (cfg : Platform) {St} (hd : handler St) (sc : syscall) (s : St)
    (e : event) (status : zx_status_t) :
  e ∈ trace hd (sys cfg sc) s ->
  validation_status e = Some status ->
  status < 0 ->
  result hd (sys cfg sc) s
  = Returned (failure_return sc status) (state_after hd e s) /\
  trace hd (sys cfg sc) s = [e] /\
  Forall effect_free (trace hd (sys cfg sc) s).
Proof.
  intros He Hst Hneg.
  destruct (validation_failure_is_only_call cfg hd sc s e status He Hst Hneg)
    as [Hres Htr].
  split; [exact Hres|]. split; [exact Htr|].
  rewrite Htr. apply Forall_cons. split; [|apply Forall_nil_2].
  apply validation_effect_free.
  exact (validation_status_is_validation _ _ Hst).
Qed.

Lemma validation_failure_has_no_effect_witness :
  let e := Ev (validate_resource 5 ZX_RSRC_KIND_ROOT) ZX_ERR_ACCESS_DENIED in
  let hd := mock ZX_ERR_ACCESS_DENIED 4096 in
  let sc := vmo_create_contiguous 5 4096 0 0x2000 in
  (e ∈ trace hd (sys pc_x86 sc) 0%nat /\
   validation_status e = Some ZX_ERR_ACCESS_DENIED /\
   ZX_ERR_ACCESS_DENIED < 0) /\
  result hd (sys pc_x86 sc) 0%nat = Returned ZX_ERR_ACCESS_DENIED 1%nat /\
  trace hd (sys pc_x86 sc) 0%nat = [e] /\
  Forall effect_free (trace hd (sys pc_x86 sc) 0%nat).
Proof.
  intros e hd sc.
  assert (H1 : e ∈ trace hd (sys pc_x86 sc) 0%nat) by (vm_compute; left).
  assert (H2 : validation_status e = Some ZX_ERR_ACCESS_DENIED) by reflexivity.
  assert (H3 : ZX_ERR_ACCESS_DENIED < 0) by reflexivity.
  split; [auto|].
  exact (validation_failure_has_no_effect pc_x86 hd sc 0%nat e _ H1 H2 H3).
Defined.

(** The same from the side of the caller: when the validator turns down
    whatever it is asked, a system call that takes a resource handle
    makes at most one call, the validation, also where an argument check
    answers before the validator is asked at all. *)
Lemma denied_resource_has_no_effect
    (cfg : Platform) {St} (hd : handler St) (sc : syscall) (s : St) :
  (forall e, e ∈ trace hd (sys cfg sc) s ->
             forall status, validation_status e = Some status -> status < 0) ->
  is_Some (resource_handle sc) ->
  Forall effect_free (trace hd (sys cfg sc) s) /\
  (length (trace hd (sys cfg sc) s) <= 1)%nat.
Proof.
  intros Hdeny [hrsrc Hres].
  pose proof (sys_shape cfg sc) as Hshape. rewrite Hres in Hshape.
  destruct Hshape as [[r Hr] | Hvt].
  - unfold trace. rewrite Hr. simpl. split; [apply Forall_nil_2|lia].
  - destruct (validates_then_run hd hrsrc _ _ s Hvt)
      as (e0 & st0 & _ & Hst0 & Hrun & _).
    assert (He0 : e0 ∈ trace hd (sys cfg sc) s).
    { unfold trace. rewrite Hrun. destruct (st0 <? 0); left. }
    pose proof (Hdeny e0 He0 st0 Hst0) as Hneg.
    destruct (validation_failure_is_only_call cfg hd sc s e0 st0 He0 Hst0 Hneg)
      as [_ Htr].
    rewrite Htr. simpl. split; [|lia].
    apply Forall_cons. split; [|apply Forall_nil_2].
    apply validation_effect_free.
    exact (validation_status_is_validation _ _ Hst0).
Qed.

(** C2, as stated, fails: [sys_interrupt_unbind] has no resource handle
    among its arguments and its first call resolves the interrupt
    handle; no validation takes place in the whole call. *)
Lemma interrupt_unbind_begins_by_lookup :
  trace (mock ZX_OK 0) (sys pc_x86 (interrupt_unbind 0x1003 0)) 0%nat
  = [Ev (GetDispatcher InterruptDispatcher 0x1003) (ZX_OK, Some 1);
     Ev (Unbind 1 0) ZX_OK;
     Ev (RefPtr_release 1) tt] /\
  begins_by_validating
    (trace (mock ZX_OK 0) (sys pc_x86 (interrupt_unbind 0x1003 0)) 0%nat)
  = false.
Proof. split; reflexivity. Qed.

(** C2, amended.  The system calls that take a resource handle make
    the validation of that handle their first call and validate only
    once, so that every lookup and every dispatcher call comes after
    it: interrupt_bind, vmo_create_physical, set_framebuffer,
    set_framebuffer_vmo and acpi_uefi_rsdp on every call;
    interrupt_create, vmo_create_contiguous and mmap_device_io on every
    call that passes the check they make first (of the options, of size
    and alignment, of the architecture: [early_return]), and a call that
    does not pass it returns the status of the check having called
    nothing.  interrupt_unbind, interrupt_complete, interrupt_wait,
    interrupt_wait_with_timestamp and interrupt_signal take no resource
    handle: their first call resolves the interrupt handle and they
    never validate.  bootloader_fb_get_info neither validates nor
    resolves a handle nor touches a dispatcher. *)
Theorem entry_validation_order
    (cfg : Platform) {St} (hd : handler St) (sc : syscall) (s : St) :
  let tr := trace hd (sys cfg sc) s in
  match resource_handle sc, interrupt_handle sc with
  | Some hrsrc, _ =>
      match early_return cfg sc with
      | Some status => run hd (sys cfg sc) s = (Returned status s, [])
      | None =>
          begins_by_validating tr = true /\
          (head tr ≫= validated_handle) = Some hrsrc /\
          Forall (fun e => is_validation e = false) (tail tr)
      end
  | None, Some h =>
      (exists x, head tr = Some (Ev (GetDispatcher InterruptDispatcher h) x)) /\
      Forall (fun e => is_validation e = false) tr
  | None, None =>
      Forall (fun e => is_validation e = false /\ resolves_handle e = false /\
                       touches_dispatcher e = false) tr
  end.
Proof.
  intros tr. subst tr.
  pose proof (sys_shape cfg sc) as Hshape.
  destruct (resource_handle sc) as [hrsrc|] eqn:Hres.
  - destruct (early_return cfg sc) as [status|] eqn:Hchk.
    + (* the check fails: nothing is called *)
      destruct sc; try discriminate Hchk; cbn [early_return] in Hchk;
        cbn [sys].
      * unfold sys_interrupt_create.
        destruct (negb (options =? 0)); [|discriminate Hchk].
        injection Hchk as <-. reflexivity.
      * unfold sys_vmo_create_contiguous. unfold effective_alignment in Hchk.
        destruct (size =? 0); [injection Hchk as <-; reflexivity|].
        cbv zeta.
        match type of Hchk with
        | (if ?b then _ else _) = _ => destruct b
        end; [|discriminate Hchk].
        injection Hchk as <-. reflexivity.
      * unfold sys_mmap_device_io.
        destruct (ARCH_X86 cfg); [discriminate Hchk|].
        injection Hchk as <-. reflexivity.
    + (* the check passes, or there is none: validation comes first *)
      destruct Hshape as [[r Hr] | Hvt].
      * exfalso.
        destruct sc; try discriminate Hres; cbn [early_return] in Hchk;
          cbn [sys] in Hr; try discriminate Hr.
        -- unfold sys_interrupt_create in Hr.
           destruct (negb (options =? 0)); discriminate.
        -- unfold sys_vmo_create_contiguous in Hr.
           unfold effective_alignment in Hchk.
           destruct (size =? 0); [discriminate Hchk|].
           cbv zeta in Hr.
           match type of Hchk with
           | (if ?b then _ else _) = _ => destruct b
           end; discriminate.
        -- unfold sys_mmap_device_io in Hr.
           destruct (ARCH_X86 cfg); discriminate.
      * destruct (validates_then_run hd hrsrc _ _ s Hvt)
          as (e0 & st0 & Hh & Hst0 & Hrun & Hrest).
        assert (Htr : trace hd (sys cfg sc) s
                      = e0 :: tail (trace hd (sys cfg sc) s)).
        { unfold trace at 1. rewrite Hrun. destruct (st0 <? 0); [|reflexivity].
          simpl. unfold trace. rewrite Hrun. reflexivity. }
        rewrite Htr. simpl.
        split; [exact (validation_status_is_validation _ _ Hst0)|].
        split; [exact Hh|]. exact Hrest.
  - assert (Hnv : Forall (fun e => is_validation e = false)
                    (trace hd (sys cfg sc) s)).
    { apply Forall_forall. intros e He.
      exact (no_validation_trace hd _ Hshape _ _ He). }
    destruct sc; try discriminate Hres; cbn [interrupt_handle];
      try (split; [eexists; reflexivity | exact Hnv]).
    unfold trace; cbn [sys]; unfold sys_bootloader_fb_get_info.
    repeat match goal with
           | |- context [if ?b then _ else _] => destruct b; simpl
           | |- Forall _ [] => apply Forall_nil_2
           | |- Forall _ (_ :: _) => apply Forall_cons; split; [repeat split|]
           end.
Qed.

Lemma entry_validation_order_witness :
  let tr := trace (mock ZX_OK 0)
              (sys pc_x86 (interrupt_bind 0x1003 0 5 11 0)) 0%nat in
  (begins_by_validating tr = true /\
   (head tr ≫= validated_handle) = Some 5 /\
   Forall (fun e => is_validation e = false) (tail tr)) /\
  run (mock ZX_OK 0) (sys arm64 (mmap_device_io 5 0x3f8 8)) 0%nat
  = (Returned ZX_ERR_NOT_SUPPORTED 0%nat, []).
Proof.
  split.
  - exact (entry_validation_order pc_x86 (mock ZX_OK 0)
             (interrupt_bind 0x1003 0 5 11 0) 0%nat).
  - exact (entry_validation_order arm64 (mock ZX_OK 0)
             (mmap_device_io 5 0x3f8 8) 0%nat).
Defined.

(** *** The ACPI root pointer *)

Lemma to_int64_to_uint64 (x : Z) :
  - 2 ^ 63 <= x < 2 ^ 63 -> to_int64 (to_uint64 x) = x.
Proof.
  intros Hx. unfold to_int64, to_uint64.
  rewrite Zplus_mod_idemp_l.
  rewrite Z.mod_small by lia. lia.
Qed.

(** C8. [sys_acpi_uefi_rsdp] makes one call, the validation of its
    resource handle against the root kind.  When that passes it returns
    the ACPI address the platform recorded at boot on x86 and 0 on the
    other targets.  When it fails, the value returned is the validator's
    status -- the call has no failure of its own -- handed back as an
    ordinary return value: the [uint64_t] return type carries it as its
    two's complement, from which the signed reading gives it back. *)
Theorem acpi_uefi_rsdp_result
    (cfg : Platform) {St} (hd : handler St) (s : St) (hrsrc : zx_handle_t) :
  let status := fst (hd _ (validate_resource hrsrc ZX_RSRC_KIND_ROOT) s) in
  let s1 := snd (hd _ (validate_resource hrsrc ZX_RSRC_KIND_ROOT) s) in
  trace hd (sys cfg (acpi_uefi_rsdp hrsrc)) s
  = [Ev (validate_resource hrsrc ZX_RSRC_KIND_ROOT) status] /\
  (0 <= status ->
   result hd (sys cfg (acpi_uefi_rsdp hrsrc)) s
   = Returned (if ARCH_X86 cfg then acpi_rsdp cfg else 0) s1) /\
  (status < 0 ->
   result hd (sys cfg (acpi_uefi_rsdp hrsrc)) s
   = Returned (to_uint64 status) s1 /\
   (- 2 ^ 63 <= status -> to_int64 (to_uint64 status) = status)).
Proof.
  intros status s1. unfold result, trace. cbn [sys]. unfold sys_acpi_uefi_rsdp.
  simpl. fold status s1.
  destruct (status <? 0) eqn:Hlt.
  - apply Z.ltb_lt in Hlt.
    split; [reflexivity|]. split; [lia|]. intros _.
    split; [reflexivity|]. intros Hlo. apply to_int64_to_uint64. lia.
  - apply Z.ltb_ge in Hlt.
    split; [destruct (ARCH_X86 cfg); reflexivity|]. split; [|lia].
    intros _. destruct (ARCH_X86 cfg); reflexivity.
Qed.

Lemma acpi_uefi_rsdp_result_witness :
  (0 <= fst (mock ZX_OK 0 _ (validate_resource 5 ZX_RSRC_KIND_ROOT) 0%nat) /\
   result (mock ZX_OK 0) (sys pc_x86 (acpi_uefi_rsdp 5)) 0%nat
   = Returned 0x7fe14 1%nat) /\
  (fst (mock ZX_ERR_ACCESS_DENIED 0 _ (validate_resource 5 ZX_RSRC_KIND_ROOT) 0%nat) < 0 /\
   result (mock ZX_ERR_ACCESS_DENIED 0) (sys arm64 (acpi_uefi_rsdp 5)) 0%nat
   = Returned (2 ^ 64 - 30) 1%nat).
Proof.
  split.
  - assert (H : 0 <= fst (mock ZX_OK 0 _ (validate_resource 5 ZX_RSRC_KIND_ROOT) 0%nat))
      by (vm_compute; discriminate).
    split; [exact H|].
    exact (proj1 (proj2 (acpi_uefi_rsdp_result pc_x86 (mock ZX_OK 0) 0%nat 5)) H).
  - assert (H : fst (mock ZX_ERR_ACCESS_DENIED 0 _
                       (validate_resource 5 ZX_RSRC_KIND_ROOT) 0%nat) < 0)
      by reflexivity.
    split; [exact H|].
    exact (proj1 (proj2 (proj2 (acpi_uefi_rsdp_result arm64
                                  (mock ZX_ERR_ACCESS_DENIED 0) 0%nat 5)) H)).
Defined.

(** *** Page rounding *)

Lemma PAGE_SIZE_pos (cfg : Platform) :
  0 <= PAGE_SIZE_SHIFT cfg -> 0 < PAGE_SIZE cfg.
Proof.
  intros H. unfold PAGE_SIZE. rewrite Z.shiftl_1_l. apply Z.pow_pos_nonneg; lia.
Qed.

(** Below the wrap-around of [size_t], [ROUNDUP_PAGE_SIZE] gives the
    least multiple of the page size that is not below its argument. *)
Lemma ROUNDUP_PAGE_SIZE_spec (cfg : Platform) (size : Z) :
  0 <= PAGE_SIZE_SHIFT cfg ->
  0 <= size ->
  size + PAGE_SIZE cfg <= SIZE_MAX_plus_1 ->
  size <= ROUNDUP_PAGE_SIZE cfg size < size + PAGE_SIZE cfg /\
  ROUNDUP_PAGE_SIZE cfg size mod PAGE_SIZE cfg = 0.
Proof.
  intros Hshift Hsize Hmax. pose proof (PAGE_SIZE_pos cfg Hshift) as Hp.
  unfold ROUNDUP_PAGE_SIZE.
  set (P := PAGE_SIZE cfg) in *. set (q := (size + (P - 1)) / P).
  assert (Hdiv : size + (P - 1) = P * q + (size + (P - 1)) mod P)
    by (apply Z.div_mod; lia).
  pose proof (Z.mod_pos_bound (size + (P - 1)) P Hp) as Hrem.
  assert (Hq : size <= q * P < size + P) by nia.
  rewrite Z.mod_small by lia.
  split; [exact Hq|]. apply Z.mod_mul. lia.
Qed.

(** The rounding leaves a size as it is exactly when the size is a
    whole number of pages. *)
Lemma ROUNDUP_PAGE_SIZE_fixed (cfg : Platform) (size : Z) :
  0 <= PAGE_SIZE_SHIFT cfg ->
  0 <= size ->
  size + PAGE_SIZE cfg <= SIZE_MAX_plus_1 ->
  ROUNDUP_PAGE_SIZE cfg size = size <-> size mod PAGE_SIZE cfg = 0.
Proof.
  intros Hshift Hsize Hmax. pose proof (PAGE_SIZE_pos cfg Hshift) as Hp.
  destruct (ROUNDUP_PAGE_SIZE_spec cfg size Hshift Hsize Hmax) as [Hb Hm].
  split.
  - intros Heq. rewrite <- Heq. exact Hm.
  - intros Hsz.
    set (r := ROUNDUP_PAGE_SIZE cfg size) in *.
    assert (Hr : r = PAGE_SIZE cfg * (r / PAGE_SIZE cfg))
      by (rewrite (Z.div_mod r (PAGE_SIZE cfg)) at 1; lia).
    assert (Hs : size = PAGE_SIZE cfg * (size / PAGE_SIZE cfg))
      by (rewrite (Z.div_mod size (PAGE_SIZE cfg)) at 1; lia).
    set (a := r / PAGE_SIZE cfg) in *. set (b := size / PAGE_SIZE cfg) in *.
    assert (b <= a) by (apply Z.mul_le_mono_pos_l with (PAGE_SIZE cfg); lia).
    assert (a < b + 1) by (apply Z.mul_lt_mono_pos_l with (PAGE_SIZE cfg); lia).
    assert (a = b) by lia. congruence.
Qed.

Example ROUNDUP_PAGE_SIZE_one : ROUNDUP_PAGE_SIZE pc_x86 1 = 4096.
Proof. reflexivity. Qed.

Example ROUNDUP_PAGE_SIZE_wraps : ROUNDUP_PAGE_SIZE pc_x86 (2 ^ 64 - 1) = 0.
Proof. reflexivity. Qed.

(** *** Physical VM objects *)

Lemma trace_Vis {St} (hd : handler St) {R X} (c : ddkE X) (k : X -> prog R) s :
  trace hd (Vis c k) s
  = Ev c (fst (hd _ c s)) :: trace hd (k (fst (hd _ c s))) (snd (hd _ c s)).
Proof. reflexivity. Qed.

Lemma result_Vis {St} (hd : handler St) {R X} (c : ddkE X) (k : X -> prog R) s :
  result hd (Vis c k) s = result hd (k (fst (hd _ c s))) (snd (hd _ c s)).
Proof. reflexivity. Qed.

Lemma omap_never {A} (f : event -> option A) (P : call_class)
    {St} (hd : handler St) {R} (p : prog R) s :
  (forall e, on P e = false -> f e = None) ->
  never P p ->
  omap f (trace hd p s) = [].
Proof.
  intros Hf Hp. pose proof (never_Forall P hd p s Hp) as Hall.
  induction Hall as [|e l He _ IH]; [reflexivity|].
  simpl. rewrite (Hf e He). exact IH.
Qed.

Lemma omap_event_cons {A} (f : event -> option A) (e : event) (l : list event) :
  omap f (e :: l)
  = match f e with Some y => y :: omap f l | None => omap f l end.
Proof. reflexivity. Qed.

Lemma validated_range_only_validation e :
  on validation_call e = false -> validated_range e = None.
Proof. destruct e as [X c x]; destruct c; simpl; congruence. Qed.

Lemma wrapped_range_only_physical e :
  on physical_create_call e = false -> wrapped_range e = None.
Proof. destruct e as [X c x]; destruct c; simpl; congruence. Qed.

Lemma vmo_handle_out_never (P : call_class) vmo _out :
  (forall d, P _ (VmObjectDispatcher_Create d) = false) ->
  (forall d r, P _ (Handle_Make d r) = false) ->
  (forall h, P _ (MapHandleToValue h) = false) ->
  (forall p v, P _ (copy_to_user p v) = false) ->
  (forall h, P _ (AddHandle h) = false) ->
  (forall o, P _ (RefPtr_release o) = false) ->
  (forall h, P _ (HandleOwner_destroy h) = false) ->
  never P (vmo_handle_out vmo _out).
Proof.
  intros H1 H2 H3 H4 H5 H6 H7. unfold vmo_handle_out.
  repeat (shape_step; auto).
Qed.

(** C3, as stated, fails: the validator is asked about the one byte the
    caller named, the VM object made on success spans the whole page. *)
Lemma vmo_create_physical_enlarges_range :
  let p := sys pc_x86 (vmo_create_physical 5 0xfee00000 1 0x2000) in
  result (mock ZX_OK 0) p 0%nat = Returned ZX_OK 7%nat /\
  omap validated_range (trace (mock ZX_OK 0) p 0%nat) = [(0xfee00000, 1)] /\
  omap wrapped_range (trace (mock ZX_OK 0) p 0%nat) = [(0xfee00000, 4096)].
Proof. repeat split. Qed.

(** C3, amended.  [sys_vmo_create_physical] begins by asking the
    validator about exactly the range [paddr, paddr + size) the caller
    named, asks it nothing else and never calls the page allocator.
    When validation passes it creates the physical VM object over
    [paddr, paddr + ROUNDUP_PAGE_SIZE(size)), and that is the object a
    successful call hands out.  For a size that does not wrap, the
    rounded size is at least the validated one and less than a page
    above it, and equals it exactly when the size is a whole number of
    pages. *)
Theorem vmo_create_physical_ranges
    (cfg : Platform) {St} (hd : handler St) (s : St)
    (hrsrc : zx_handle_t) (paddr size : Z) (_out : user_ptr) :
  let p := sys cfg (vmo_create_physical hrsrc paddr size _out) in
  let status := fst (hd _ (validate_resource_mmio hrsrc paddr size) s) in
  head (trace hd p s)
  = Some (Ev (validate_resource_mmio hrsrc paddr size) status) /\
  omap validated_range (trace hd p s) = [(paddr, size)] /\
  Forall (fun e => allocates_pages e = false) (trace hd p s) /\
  omap wrapped_range (trace hd p s)
  = (if status <? 0 then [] else [(paddr, ROUNDUP_PAGE_SIZE cfg size)]) /\
  (forall s', result hd p s = Returned ZX_OK s' ->
     omap wrapped_range (trace hd p s) = [(paddr, ROUNDUP_PAGE_SIZE cfg size)]) /\
  (0 <= PAGE_SIZE_SHIFT cfg -> 0 <= size ->
   size + PAGE_SIZE cfg <= SIZE_MAX_plus_1 ->
   size <= ROUNDUP_PAGE_SIZE cfg size < size + PAGE_SIZE cfg /\
   (ROUNDUP_PAGE_SIZE cfg size = size <-> size mod PAGE_SIZE cfg = 0)).
Proof.
  intros p status. subst p. cbn [sys]. unfold sys_vmo_create_physical.
  cbn [mbind prog_mbind prog_bind call].
  rewrite trace_Vis, result_Vis. fold status.
  set (s1 := snd (hd _ (validate_resource_mmio hrsrc paddr size) s)).
  assert (Hnum : 0 <= PAGE_SIZE_SHIFT cfg -> 0 <= size ->
                 size + PAGE_SIZE cfg <= SIZE_MAX_plus_1 ->
                 size <= ROUNDUP_PAGE_SIZE cfg size < size + PAGE_SIZE cfg /\
                 (ROUNDUP_PAGE_SIZE cfg size = size <-> size mod PAGE_SIZE cfg = 0)).
  { intros H1 H2 H3. split.
    - apply ROUNDUP_PAGE_SIZE_spec; assumption.
    - apply ROUNDUP_PAGE_SIZE_fixed; assumption. }
  destruct (status <? 0) eqn:Hlt.
  - split; [reflexivity|]. split; [reflexivity|].
    split; [apply Forall_cons; split; [reflexivity|apply Forall_nil_2]|].
    split; [reflexivity|]. split; [|exact Hnum].
    intros s' Hres. unfold result in Hres. simpl in Hres.
    injection Hres as Hst _. apply Z.ltb_lt in Hlt.
    unfold ZX_OK in Hst. lia.
  - rewrite trace_Vis.
    match goal with
    | |- context [trace hd ?q ?s2] =>
        assert (Hrest : forall P : call_class,
                  (forall d, P _ (VmObjectDispatcher_Create d) = false) ->
                  (forall d r, P _ (Handle_Make d r) = false) ->
                  (forall h, P _ (MapHandleToValue h) = false) ->
                  (forall p v, P _ (copy_to_user p v) = false) ->
                  (forall h, P _ (AddHandle h) = false) ->
                  (forall o, P _ (RefPtr_release o) = false) ->
                  (forall h, P _ (HandleOwner_destroy h) = false) ->
                  never P q);
        [|set (rest := trace hd q s2) in *]
    end.
    { intros P H1 H2 H3 H4 H5 H6 H7.
      destruct (fst (hd _ (VmObjectPhysical_Create paddr (ROUNDUP_PAGE_SIZE cfg size)) s1))
        as [result0 vmo].
      destruct (negb (result0 =? ZX_OK)).
      - destruct vmo; simpl; auto.
      - apply vmo_handle_out_never; assumption. }
    assert (Hv : omap validated_range rest = []).
    { apply (omap_never _ validation_call); [apply validated_range_only_validation|].
      apply Hrest; reflexivity. }
    assert (Hw : omap wrapped_range rest = []).
    { apply (omap_never _ physical_create_call); [apply wrapped_range_only_physical|].
      apply Hrest; reflexivity. }
    assert (Ha : Forall (fun e => allocates_pages e = false) rest).
    { apply (never_Forall page_alloc_call). apply Hrest; reflexivity. }
    split; [reflexivity|]. split; [rewrite !omap_event_cons, Hv; reflexivity|].
    split; [repeat (apply Forall_cons; split; [reflexivity|]); exact Ha|].
    split; [rewrite !omap_event_cons, Hw; reflexivity|].
    split; [intros s' _; rewrite !omap_event_cons, Hw; reflexivity|exact Hnum].
Qed.

Lemma vmo_create_physical_ranges_witness :
  (0 <= PAGE_SIZE_SHIFT pc_x86 /\ 0 <= 1 /\
   1 + PAGE_SIZE pc_x86 <= SIZE_MAX_plus_1) /\
  (1 <= ROUNDUP_PAGE_SIZE pc_x86 1 < 1 + PAGE_SIZE pc_x86 /\
   (ROUNDUP_PAGE_SIZE pc_x86 1 = 1 <-> 1 mod PAGE_SIZE pc_x86 = 0)) /\
  omap wrapped_range
    (trace (mock ZX_OK 0)
       (sys pc_x86 (vmo_create_physical 5 0xfee00000 1 0x2000)) 0%nat)
  = [(0xfee00000, ROUNDUP_PAGE_SIZE pc_x86 1)].
Proof.
  pose proof (vmo_create_physical_ranges pc_x86 (mock ZX_OK 0) 0%nat
                5 0xfee00000 1 0x2000) as (_ & _ & _ & _ & Hok & Hnum).
  assert (H1 : 0 <= PAGE_SIZE_SHIFT pc_x86) by (vm_compute; discriminate).
  assert (H2 : 0 <= 1) by lia.
  assert (H3 : 1 + PAGE_SIZE pc_x86 <= SIZE_MAX_plus_1) by (vm_compute; discriminate).
  split; [auto|]. split; [exact (Hnum H1 H2 H3)|].
  exact (Hok 7%nat eq_refl).
Defined.

(** *** Contiguous VM objects *)

Lemma alloc_request_only_alloc e :
  on page_alloc_call e = false -> alloc_request e = None.
Proof. destruct e as [X c x]; destruct c; simpl; congruence. Qed.

Lemma drop_never (P : call_class) (r : RefPtr) {R} (x : R) :
  (forall o, P _ (RefPtr_release o) = false) ->
  never P (drop r ;; Ret x).
Proof. intros H. destruct r; simpl; auto. Qed.

(** The argument checks of [sys_vmo_create_contiguous] and the size
    it asks of the allocator.  The call checks its arguments before it
    calls anything: a zero size is [ZX_ERR_INVALID_ARGS]; an alignment
    of zero stands for the page-size shift (the call is the same
    program as with that alignment); a nonzero alignment below the
    page-size shift, or one of 64 and above, is [ZX_ERR_INVALID_ARGS].
    Otherwise the call validates the resource handle and every request
    it then makes to the page allocator -- the creation of the VM
    object, made as soon as validation passes, and the commit -- is for
    [ROUNDUP_PAGE_SIZE(size)] bytes, which for a size that does not wrap
    is the least whole number of pages holding [size]. *)
Theorem vmo_create_contiguous_arguments
    (cfg : Platform) {St} (hd : handler St) (s : St)
    (hrsrc : zx_handle_t) (size alignment_log2 : Z) (_out : user_ptr) :
  let p := fun a => sys cfg (vmo_create_contiguous hrsrc size a _out) in
  let status := fst (hd _ (validate_resource hrsrc ZX_RSRC_KIND_ROOT) s) in
  (size = 0 -> run hd (p alignment_log2) s = (Returned ZX_ERR_INVALID_ARGS s, [])) /\
  p 0 = p (PAGE_SIZE_SHIFT cfg) /\
  (alignment_log2 <> 0 ->
   alignment_log2 < PAGE_SIZE_SHIFT cfg \/ 64 <= alignment_log2 ->
   run hd (p alignment_log2) s = (Returned ZX_ERR_INVALID_ARGS s, [])) /\
  (size <> 0 ->
   PAGE_SIZE_SHIFT cfg <= effective_alignment cfg alignment_log2 < 64 ->
   head (trace hd (p alignment_log2) s)
   = Some (Ev (validate_resource hrsrc ZX_RSRC_KIND_ROOT) status) /\
   Forall (fun e => forall n, alloc_request e = Some n ->
                              n = ROUNDUP_PAGE_SIZE cfg size)
     (trace hd (p alignment_log2) s) /\
   (0 <= status ->
    exists x, trace hd (p alignment_log2) s !! 1%nat
              = Some (Ev (VmObjectPaged_Create PMM_ALLOC_FLAG_ANY
                            (ROUNDUP_PAGE_SIZE cfg size)) x))) /\
  (0 <= PAGE_SIZE_SHIFT cfg -> 0 <= size ->
   size + PAGE_SIZE cfg <= SIZE_MAX_plus_1 ->
   size <= ROUNDUP_PAGE_SIZE cfg size < size + PAGE_SIZE cfg /\
   ROUNDUP_PAGE_SIZE cfg size mod PAGE_SIZE cfg = 0).
Proof.
  intros p status. subst p. cbn [sys]. unfold sys_vmo_create_contiguous.
  split; [intros ->; reflexivity|].
  split.
  { rewrite Z.eqb_refl. destruct (PAGE_SIZE_SHIFT cfg =? 0); reflexivity. }
  split.
  { intros Hnz Hbad. destruct (size =? 0); [reflexivity|].
    apply Z.eqb_neq in Hnz. rewrite Hnz.
    assert (Hb : (alignment_log2 <? PAGE_SIZE_SHIFT cfg)
                 || (alignment_log2 >=? 8 * 8) = true).
    { apply orb_true_iff. destruct Hbad; [left; apply Z.ltb_lt; lia|].
      right. apply Z.geb_le. lia. }
    rewrite Hb. reflexivity. }
  split; [|apply ROUNDUP_PAGE_SIZE_spec].
  intros Hsize Halign. unfold effective_alignment in Halign.
  apply Z.eqb_neq in Hsize. rewrite Hsize.
  assert (Hb : ((if alignment_log2 =? 0 then PAGE_SIZE_SHIFT cfg else alignment_log2)
                <? PAGE_SIZE_SHIFT cfg)
               || ((if alignment_log2 =? 0 then PAGE_SIZE_SHIFT cfg else alignment_log2)
                   >=? 8 * 8) = false).
  { apply orb_false_iff. split; [apply Z.ltb_ge; lia|].
    rewrite Z.geb_leb. apply Z.leb_gt. lia. }
  cbv zeta. rewrite Hb.
  cbn [mbind prog_mbind prog_bind call].
  rewrite trace_Vis. fold status.
  set (s1 := snd (hd _ (validate_resource hrsrc ZX_RSRC_KIND_ROOT) s)).
  split; [reflexivity|].
  destruct (status <? 0) eqn:Hlt.
  { split.
    - apply Forall_cons. split; [discriminate|apply Forall_nil_2].
    - intros Hpos. apply Z.ltb_lt in Hlt. lia. }
  rewrite trace_Vis.
  split; [|intros _; eexists; reflexivity].
  apply Forall_cons. split; [discriminate|].
  apply Forall_cons. split; [simpl; congruence|].
  set (a := hd _ (VmObjectPaged_Create PMM_ALLOC_FLAG_ANY _) s1).
  assert (Hquiet : forall {R} (q : prog R) s2, never page_alloc_call q ->
            Forall (fun e => forall n, alloc_request e = Some n ->
                                       n = ROUNDUP_PAGE_SIZE cfg size)
              (trace hd q s2)).
  { intros R q s2 Hq. eapply Forall_impl; [apply (never_Forall _ hd q s2 Hq)|].
    intros e He n Hn. rewrite (alloc_request_only_alloc e He) in Hn.
    discriminate. }
  destruct (fst a) as [st vmo].
  destruct (negb (st =? ZX_OK)).
  { apply Hquiet, drop_never. reflexivity. }
  destruct vmo as [v|]; [|apply Forall_nil_2].
  rewrite trace_Vis.
  apply Forall_cons. split; [simpl; congruence|].
  match goal with |- context [fst (hd ?X ?c ?s2)] =>
    destruct (fst (hd X c s2)) as [st' committed] end.
  apply Hquiet.
  destruct ((st' <? 0) || (committed <? ROUNDUP_PAGE_SIZE cfg size)).
  - simpl. auto.
  - apply vmo_handle_out_never; reflexivity.
Qed.

Lemma vmo_create_contiguous_arguments_witness :
  (0 = 0 /\
   run (mock ZX_OK 0) (sys pc_x86 (vmo_create_contiguous 5 0 12 0x2000)) 0%nat
   = (Returned ZX_ERR_INVALID_ARGS 0%nat, [])) /\
  (11 <> 0 /\ (11 < PAGE_SIZE_SHIFT pc_x86 \/ 64 <= 11) /\
   run (mock ZX_OK 0) (sys pc_x86 (vmo_create_contiguous 5 4096 11 0x2000)) 0%nat
   = (Returned ZX_ERR_INVALID_ARGS 0%nat, [])) /\
  (5000 <> 0 /\
   PAGE_SIZE_SHIFT pc_x86 <= effective_alignment pc_x86 0 < 64 /\
   Forall (fun e => forall n, alloc_request e = Some n ->
                              n = ROUNDUP_PAGE_SIZE pc_x86 5000)
     (trace (mock ZX_OK 8192)
        (sys pc_x86 (vmo_create_contiguous 5 5000 0 0x2000)) 0%nat)) /\
  (0 <= PAGE_SIZE_SHIFT pc_x86 /\ 0 <= 5000 /\
   5000 + PAGE_SIZE pc_x86 <= SIZE_MAX_plus_1 /\
   5000 <= ROUNDUP_PAGE_SIZE pc_x86 5000 < 5000 + PAGE_SIZE pc_x86).
Proof.
  split.
  { split; [reflexivity|].
    exact (proj1 (vmo_create_contiguous_arguments pc_x86 (mock ZX_OK 0) 0%nat
                    5 0 12 0x2000) eq_refl). }
  split.
  { assert (H1 : 11 <> 0) by discriminate.
    assert (H2 : 11 < PAGE_SIZE_SHIFT pc_x86 \/ 64 <= 11) by (left; reflexivity).
    split; [exact H1|]. split; [exact H2|].
    exact (proj1 (proj2 (proj2 (vmo_create_contiguous_arguments pc_x86
                                  (mock ZX_OK 0) 0%nat 5 4096 11 0x2000))) H1 H2). }
  split.
  { assert (H1 : 5000 <> 0) by discriminate.
    assert (H2 : PAGE_SIZE_SHIFT pc_x86 <= effective_alignment pc_x86 0 < 64)
      by (vm_compute; split; [discriminate|reflexivity]).
    split; [exact H1|]. split; [exact H2|].
    exact (proj1 (proj2 (proj1 (proj2 (proj2 (proj2
             (vmo_create_contiguous_arguments pc_x86 (mock ZX_OK 8192) 0%nat
                5 5000 0 0x2000)))) H1 H2))). }
  assert (H1 : 0 <= PAGE_SIZE_SHIFT pc_x86) by (vm_compute; discriminate).
  assert (H2 : 0 <= 5000) by lia.
  assert (H3 : 5000 + PAGE_SIZE pc_x86 <= SIZE_MAX_plus_1) by (vm_compute; discriminate).
  split; [exact H1|]. split; [exact H2|]. split; [exact H3|].
  exact (proj1 (proj2 (proj2 (proj2 (proj2
           (vmo_create_contiguous_arguments pc_x86 (mock ZX_OK 0) 0%nat
              5 5000 0 0x2000)))) H1 H2 H3)).
Defined.

(** C4, at a size whose rounding a [size_t] cannot hold.  For a size
    within a page of [2^64] the argument checks pass and the rounding
    wraps to 0: the allocator is asked to create and to commit 0 bytes,
    less than the size of the caller and no rounding up of it; a commit
    of 0 bytes cannot fall short, and the call returns [ZX_OK] with a
    handle installed for the empty object. *)
Lemma vmo_create_contiguous_size_wraps :
  let size := 2 ^ 64 - 1 in
  (0 < size < 2 ^ 64) /\
  ROUNDUP_PAGE_SIZE pc_x86 size = 0 /\
  ~ (size <= ROUNDUP_PAGE_SIZE pc_x86 size) /\
  run (mock ZX_OK 0) (sys pc_x86 (vmo_create_contiguous 5 size 0 0x2000)) 0%nat
  = (Returned ZX_OK 8%nat,
     [Ev (validate_resource 5 ZX_RSRC_KIND_ROOT) ZX_OK;
      Ev (VmObjectPaged_Create PMM_ALLOC_FLAG_ANY 0) (ZX_OK, Some 2);
      Ev (CommitRangeContiguous 2 0 0 12) (ZX_OK, 0);
      Ev (VmObjectDispatcher_Create (Some 2)) (ZX_OK, Some 3, 0);
      Ev (Handle_Make (Some 3) 0) (Some 7);
      Ev (MapHandleToValue (Some 7)) 0x1003;
      Ev (copy_to_user 0x2000 0x1003) ZX_OK;
      Ev (AddHandle (Some 7)) tt]) /\
  omap alloc_request
    (trace (mock ZX_OK 0) (sys pc_x86 (vmo_create_contiguous 5 size 0 0x2000)) 0%nat)
  = [0; 0].
Proof.
  intros size. subst size.
  split; [split; reflexivity|].
  split; [reflexivity|].
  split; [vm_compute; intros H; apply H; reflexivity|].
  split; reflexivity.
Qed.




(** *** The kernel model: lookups and transient references *)

Lemma lookup_status (k : kernel) ty h :
  fst (fst (lookup k ty h))
  = match handle_table k !! h with
    | None => ZX_ERR_BAD_HANDLE
    | Some (o, _) =>
        match objects k !! o with
        | None => ZX_ERR_BAD_HANDLE
        | Some (d, _) =>
            if decide (type_of d = ty) then ZX_OK else ZX_ERR_WRONG_TYPE
        end
    end.
Proof.
  unfold lookup. destruct (handle_table k !! h) as [[o r]|]; [|reflexivity].
  destruct (objects k !! o) as [[d n]|]; [|reflexivity].
  destruct (decide (type_of d = ty)); reflexivity.
Qed.

Lemma lookup_ok (k : kernel) ty h o r d n :
  handle_table k !! h = Some (o, r) ->
  objects k !! o = Some (d, n) ->
  type_of d = ty ->
  lookup k ty h = ((ZX_OK, Some o), with_objects <[o := (d, Pos.succ n)]> k).
Proof.
  intros Hh Ho Hty. unfold lookup. rewrite Hh, Ho.
  destruct (decide (type_of d = ty)); [reflexivity|contradiction].
Qed.

Lemma kernel_eq (k1 k2 : kernel) :
  objects k1 = objects k2 -> handle_table k1 = handle_table k2 ->
  unowned k1 = unowned k2 -> vectors k1 = vectors k2 ->
  user_memory k1 = user_memory k2 -> k1 = k2.
Proof. destruct k1, k2; simpl; intros; subst; reflexivity. Qed.

Lemma kernel_transient_lookup (MAX_SLOTS : nat) (ext : handler kernel) :
  transient_lookup (kernel_handler MAX_SLOTS ext).
Proof.
  intros k ty h. cbn [kernel_handler]. unfold lookup.
  destruct (handle_table k !! h) as [[o r]|]; [|reflexivity].
  destruct (objects k !! o) as [[d n]|] eqn:Ho; [|reflexivity].
  destruct (decide (type_of d = ty)); [|reflexivity].
  unfold result. simpl. unfold release. simpl. rewrite lookup_insert_eq.
  destruct (decide (Pos.succ n = 1%positive)) as [Hn|_].
  { exfalso. exact (Pos.succ_not_1 _ Hn). }
  f_equal. apply kernel_eq; simpl; try reflexivity.
  rewrite insert_insert_eq, Pos.pred_succ. apply insert_id. exact Ho.
Qed.

(** *** The deprecated completion call *)

(** C9. [sys_interrupt_complete] resolves its handle to an interrupt
    dispatcher, drops the reference the lookup handed out and returns
    the status of the lookup: these are its only calls.  With lookups
    whose reference is transient, as the handle table has them, the
    kernel state after the call is the state before it. *)
Theorem interrupt_complete_changes_nothing
    (cfg : Platform) {St} (hd : handler St) (s : St) (h : zx_handle_t) :
  transient_lookup hd ->
  let looked := fst (hd _ (GetDispatcher InterruptDispatcher h) s) in
  result hd (sys cfg (interrupt_complete h)) s = Returned (fst looked) s /\
  trace hd (sys cfg (interrupt_complete h)) s
  = Ev (GetDispatcher InterruptDispatcher h) looked
    :: match snd looked with
       | Some o => [Ev (RefPtr_release o) tt]
       | None => []
       end /\
  Forall (fun e => is_validation e = false /\ creates_handle e = false /\
                   touches_dispatcher e = false /\ changes_slot e = false /\
                   allocates_pages e = false /\ reaches_hardware e = false /\
                   writes_user e = false)
    (trace hd (sys cfg (interrupt_complete h)) s).
Proof.
  intros Htransient. specialize (Htransient s InterruptDispatcher h).
  cbv zeta. cbn [sys]. unfold sys_interrupt_complete.
  cbn [mbind prog_mbind prog_bind call].
  rewrite trace_Vis, result_Vis.
  set (s1 := snd (hd _ (GetDispatcher InterruptDispatcher h) s)) in *.
  revert Htransient.
  destruct (fst (hd _ (GetDispatcher InterruptDispatcher h) s))
    as [status [o|]]; intros Htransient;
    cbn [fst snd drop call mbind prog_mbind prog_bind] in *.
  - unfold call in Htransient.
    rewrite trace_Vis. rewrite result_Vis in Htransient |- *.
    unfold result in Htransient |- *. simpl in Htransient |- *.
    injection Htransient as _ Hs. rewrite Hs.
    destruct (fst (hd _ (RefPtr_release o) s1)).
    split; [reflexivity|]. split; [reflexivity|].
    repeat (apply Forall_cons; split; [repeat split|]). apply Forall_nil_2.
  - unfold result in Htransient |- *. simpl in Htransient |- *.
    injection Htransient as Hs. rewrite Hs.
    split; [reflexivity|]. split; [reflexivity|].
    repeat (apply Forall_cons; split; [repeat split|]). apply Forall_nil_2.
Qed.

Lemma interrupt_complete_changes_nothing_witness :
  transient_lookup (kernel_handler 64 no_ext) /\
  result (kernel_handler 64 no_ext) (sys pc_x86 (interrupt_complete 6)) driver_kernel
  = Returned ZX_OK driver_kernel /\
  result (kernel_handler 64 no_ext) (sys pc_x86 (interrupt_complete 5)) driver_kernel
  = Returned ZX_ERR_WRONG_TYPE driver_kernel /\
  result (kernel_handler 64 no_ext) (sys pc_x86 (interrupt_complete 9)) driver_kernel
  = Returned ZX_ERR_BAD_HANDLE driver_kernel.
Proof.
  pose proof (kernel_transient_lookup 64 no_ext) as H.
  split; [exact H|].
  split; [|split].
  - exact (proj1 (interrupt_complete_changes_nothing pc_x86 (kernel_handler 64 no_ext)
                    driver_kernel 6 H)).
  - exact (proj1 (interrupt_complete_changes_nothing pc_x86 (kernel_handler 64 no_ext)
                    driver_kernel 5 H)).
  - exact (proj1 (interrupt_complete_changes_nothing pc_x86 (kernel_handler 64 no_ext)
                    driver_kernel 9 H)).
Defined.

(** *** The kernel model: the interrupt system calls *)

Lemma validate_frame (k k' : kernel) h kind range :
  handle_table k' !! h = handle_table k !! h ->
  (forall o r, handle_table k !! h = Some (o, r) ->
               objects k' !! o = objects k !! o) ->
  validate k' h kind range = validate k h kind range.
Proof.
  intros Hh Ho. unfold validate. rewrite Hh.
  destruct (handle_table k !! h) as [[o r]|] eqn:Hk; [|reflexivity].
  rewrite (Ho o r eq_refl). reflexivity.
Qed.

Lemma validate_ok_resolves (k : kernel) h kind range :
  validate k h kind range = ZX_OK ->
  exists o r, handle_table k !! h = Some (o, r) /\ is_Some (objects k !! o).
Proof.
  unfold validate. destruct (handle_table k !! h) as [[o r]|]; [|discriminate].
  destruct (objects k !! o) as [[d n]|] eqn:Ho; [|discriminate].
  intros _. exists o, r. split; [reflexivity|]. rewrite Ho. eexists; reflexivity.
Qed.

Ltac kstep :=
  rewrite ?result_Vis, ?trace_Vis;
  cbn [kernel_handler fst snd with_objects with_handle_table with_unowned
       with_vectors with_user_memory objects handle_table unowned vectors
       user_memory].

Lemma sys_interrupt_create_kernel (MAX_SLOTS : nat) (ext : handler kernel)
    (cfg : Platform)
    (k : kernel) (hrsrc : zx_handle_t) (out : user_ptr) :
  validate k hrsrc ZX_RSRC_KIND_ROOT None = ZX_OK ->
  is_Some (user_memory k !! out) ->
  result (kernel_handler MAX_SLOTS ext) (sys cfg (interrupt_create hrsrc 0 out)) k
  = Returned ZX_OK (created MAX_SLOTS k out).
Proof.
  intros Hval [w Hout].
  cbn [sys]. unfold sys_interrupt_create.
  cbn [Z.eqb negb mbind prog_mbind prog_bind call].
  kstep. rewrite Hval. change (ZX_OK <? 0) with false. cbv iota.
  kstep. unfold interrupt_new. kstep.
  change (negb (ZX_OK =? ZX_OK)) with false. cbv iota.
  kstep. unfold make_handle. kstep.
  kstep. cbn [default from_option id].
  kstep. unfold write_user. kstep. rewrite Hout. kstep.
  change (negb (ZX_OK =? ZX_OK)) with false. cbv iota.
  kstep. unfold add_handle. kstep. rewrite lookup_insert_eq.
  reflexivity.
Qed.

(** Releasing a reference that is not the last one only counts down. *)
Lemma release_keeps (k : kernel) (o : kobj) (d : dispatcher) (n : positive) :
  objects k !! o = Some (d, Pos.succ n) ->
  release o k = with_objects <[o := (d, n)]> k.
Proof.
  intros Ho. unfold release. rewrite Ho.
  destruct (decide (Pos.succ n = 1%positive)) as [Hn|_].
  { exfalso. exact (Pos.succ_not_1 _ Hn). }
  rewrite Pos.pred_succ. reflexivity.
Qed.

Ltac released :=
  unfold result; cbn [run fst]; f_equal;
  erewrite release_keeps;
  [|unfold set_slots; kstep; rewrite lookup_alter_eq, lookup_insert_eq; reflexivity];
  apply kernel_eq; unfold set_slots; kstep; try reflexivity;
  rewrite alter_insert_eq, insert_insert_eq; reflexivity.

Lemma slots_of_lookup (k : kernel) (o : kobj) (slots : list slot) (n : positive) :
  slots_of (with_objects <[o := (Interrupt slots, n)]> k) o = Some slots.
Proof. unfold slots_of. kstep. rewrite lookup_insert_eq. reflexivity. Qed.

Lemma sys_interrupt_bind_kernel (MAX_SLOTS : nat) (ext : handler kernel)
    (cfg : Platform)
    (k : kernel) (hv hrsrc : zx_handle_t) (vector options : Z)
    (o : kobj) (r : zx_rights_t) (slots : list slot) (n : positive) (sl : slot) :
  validate k hrsrc ZX_RSRC_KIND_ROOT None = ZX_OK ->
  handle_table k !! hv = Some (o, r) ->
  objects k !! o = Some (Interrupt slots, n) ->
  slots !! 0%nat = Some sl ->
  slot_st sl = IDLE ->
  vectors k !! vector = None ->
  result (kernel_handler MAX_SLOTS ext) (sys cfg (interrupt_bind hv 0 hrsrc vector options)) k
  = Returned ZX_OK
      (with_vectors <[vector := o]>
         (with_objects <[o := (Interrupt (<[0%nat := bound_slot vector]> slots), n)]> k)).
Proof.
  intros Hval Hh Ho Hsl Hidle Hvec.
  cbn [sys]. unfold sys_interrupt_bind.
  cbn [mbind prog_mbind prog_bind call].
  kstep. rewrite Hval. change (ZX_OK <? 0) with false. cbv iota.
  kstep. rewrite (lookup_ok k InterruptDispatcher hv o r _ n Hh Ho eq_refl). kstep.
  change (negb (ZX_OK =? ZX_OK)) with false. cbv iota.
  cbn [mbind prog_mbind prog_bind call drop].
  kstep. unfold interrupt_bind_slot. rewrite slots_of_lookup.
  change (0 <? 0) with false. cbv iota. change (Z.to_nat 0) with 0%nat.
  rewrite Hsl.
  destruct (decide (slot_st sl <> IDLE /\ slot_vector sl <> vector)) as [[Hc _]|_];
    [contradiction|].
  kstep. rewrite Hvec. kstep.
  kstep. released.
Qed.

Lemma sys_interrupt_signal_kernel (MAX_SLOTS : nat) (ext : handler kernel)
    (cfg : Platform)
    (k : kernel) (hv : zx_handle_t) (timestamp : zx_time_t)
    (o : kobj) (r : zx_rights_t) (slots : list slot) (n : positive) (sl : slot) :
  handle_table k !! hv = Some (o, r) ->
  objects k !! o = Some (Interrupt slots, n) ->
  slots !! 0%nat = Some sl ->
  slot_st sl <> IDLE ->
  result (kernel_handler MAX_SLOTS ext) (sys cfg (interrupt_signal hv 0 timestamp)) k
  = Returned ZX_OK
      (with_objects
         <[o := (Interrupt (<[0%nat := signalled_slot sl timestamp]> slots), n)]> k).
Proof.
  intros Hh Ho Hsl Hbound.
  cbn [sys]. unfold sys_interrupt_signal.
  cbn [mbind prog_mbind prog_bind call].
  kstep. rewrite (lookup_ok k InterruptDispatcher hv o r _ n Hh Ho eq_refl). kstep.
  change (negb (ZX_OK =? ZX_OK)) with false. cbv iota.
  cbn [mbind prog_mbind prog_bind call drop].
  kstep. unfold interrupt_user_signal. rewrite slots_of_lookup.
  change (0 <? 0) with false. cbv iota. change (Z.to_nat 0) with 0%nat.
  rewrite Hsl.
  destruct (decide (slot_st sl = IDLE)) as [Hc|_]; [contradiction|].
  kstep. kstep. released.
Qed.

Lemma run_result_trace {St} (hd : handler St) {R} (p : prog R) (s : St) :
  run hd p s = (result hd p s, trace hd p s).
Proof. unfold result, trace. destruct (run hd p s); reflexivity. Qed.

Lemma sys_interrupt_wait_with_timestamp_kernel (MAX_SLOTS : nat)
    (ext : handler kernel)
    (cfg : Platform) (k : kernel) (hv : zx_handle_t) (out_slot out_ts : user_ptr)
    (o : kobj) (r : zx_rights_t) (slots : list slot) (n : positive)
    (i : nat) (sl : slot) :
  handle_table k !! hv = Some (o, r) ->
  objects k !! o = Some (Interrupt slots, n) ->
  list_find (fun sl => slot_st sl = SIGNALED) slots = Some (i, sl) ->
  out_slot <> 0 -> out_ts <> 0 ->
  is_Some (user_memory k !! out_slot) ->
  is_Some (user_memory k !! out_ts) ->
  run (kernel_handler MAX_SLOTS ext)
    (sys cfg (interrupt_wait_with_timestamp hv out_slot out_ts)) k
  = (Returned ZX_OK
       (with_user_memory
          (fun m => <[out_ts := pending_timestamp sl]> (<[out_slot := Z.of_nat i]> m))
          (with_objects <[o := (Interrupt (<[i := consume sl]> slots), n)]> k)),
     [Ev (GetDispatcher InterruptDispatcher hv) (ZX_OK, Some o);
      Ev (WaitForInterruptWithTimeStamp o)
         (Some (ZX_OK, Z.of_nat i, pending_timestamp sl));
      Ev (copy_to_user out_slot (Z.of_nat i)) ZX_OK;
      Ev (copy_to_user out_ts (pending_timestamp sl)) ZX_OK;
      Ev (RefPtr_release o) tt]).
Proof.
  intros Hh Ho Hfind Hp1 Hp2 [w1 Hm1] [w2 Hm2].
  apply Z.eqb_neq in Hp1, Hp2.
  assert (Hm2' : is_Some (<[out_slot := Z.of_nat i]> (user_memory k) !! out_ts)).
  { rewrite lookup_insert_is_Some. destruct (decide (out_slot = out_ts)); eauto. }
  destruct Hm2' as [w3 Hm3].
  rewrite run_result_trace. f_equal.
  - cbn [sys]. unfold sys_interrupt_wait_with_timestamp.
    cbn [mbind prog_mbind prog_bind call].
    kstep. rewrite (lookup_ok k InterruptDispatcher hv o r _ n Hh Ho eq_refl). kstep.
    change (negb (ZX_OK =? ZX_OK)) with false. cbv iota.
    cbn [mbind prog_mbind prog_bind call drop].
    kstep. unfold interrupt_wait_timestamp. rewrite slots_of_lookup, Hfind. kstep.
    change (ZX_OK =? ZX_OK) with true. rewrite Hp1, Hp2.
    cbn [negb andb mbind prog_mbind prog_bind call].
    kstep. unfold write_user, set_slots. kstep. rewrite Hm1. kstep.
    change (ZX_OK =? ZX_OK) with true. cbn [negb andb mbind prog_mbind prog_bind call].
    kstep. unfold write_user. kstep. rewrite Hm3. kstep. kstep.
    unfold result; cbn [run fst]; f_equal.
    erewrite release_keeps;
      [|kstep; rewrite lookup_alter_eq, lookup_insert_eq; reflexivity].
    apply kernel_eq; kstep; try reflexivity.
    rewrite alter_insert_eq, insert_insert_eq. reflexivity.
  - cbn [sys]. unfold sys_interrupt_wait_with_timestamp.
    cbn [mbind prog_mbind prog_bind call].
    kstep. rewrite (lookup_ok k InterruptDispatcher hv o r _ n Hh Ho eq_refl). kstep.
    change (negb (ZX_OK =? ZX_OK)) with false. cbv iota.
    cbn [mbind prog_mbind prog_bind call drop].
    kstep. unfold interrupt_wait_timestamp. rewrite slots_of_lookup, Hfind. kstep.
    change (ZX_OK =? ZX_OK) with true. rewrite Hp1, Hp2.
    cbn [negb andb mbind prog_mbind prog_bind call].
    kstep. unfold write_user, set_slots. kstep. rewrite Hm1. kstep.
    change (ZX_OK =? ZX_OK) with true. cbn [negb andb mbind prog_mbind prog_bind call].
    kstep. unfold write_user. kstep. rewrite Hm3. kstep. kstep.
    reflexivity.
Qed.

(** C7. On the kernel of the design document, whatever the number of
    slots as long as there is one, with a resource handle that passes
    root validation, a vector [V] that no interrupt object has claimed
    and mapped out-pointers: [sys_interrupt_create], then
    [sys_interrupt_bind] of slot 0 to [V], then [sys_interrupt_signal]
    of slot 0 with timestamp [T] all succeed, and the
    [sys_interrupt_wait_with_timestamp] that follows returns [ZX_OK]
    without suspending the thread; its wait call hands back slot 0 and
    timestamp [T], and these are the values written to the caller. *)
Theorem interrupt_round_trip
    (MAX_SLOTS : nat) (ext : handler kernel) (cfg : Platform) (k : kernel)
    (hrsrc : zx_handle_t) (V : Z) (T : zx_time_t)
    (out_handle out_slot out_ts : user_ptr) :
  (0 < MAX_SLOTS)%nat ->
  validate k hrsrc ZX_RSRC_KIND_ROOT None = ZX_OK ->
  vectors k !! V = None ->
  is_Some (user_memory k !! out_handle) ->
  is_Some (user_memory k !! out_slot) ->
  is_Some (user_memory k !! out_ts) ->
  out_slot <> 0 -> out_ts <> 0 -> out_slot <> out_ts ->
  exists hv k1 k2 k3 k4,
    result (kernel_handler MAX_SLOTS ext) (sys cfg (interrupt_create hrsrc 0 out_handle)) k
    = Returned ZX_OK k1 /\
    user_memory k1 !! out_handle = Some hv /\
    result (kernel_handler MAX_SLOTS ext) (sys cfg (interrupt_bind hv 0 hrsrc V 0)) k1
    = Returned ZX_OK k2 /\
    result (kernel_handler MAX_SLOTS ext) (sys cfg (interrupt_signal hv 0 T)) k2
    = Returned ZX_OK k3 /\
    result (kernel_handler MAX_SLOTS ext)
      (sys cfg (interrupt_wait_with_timestamp hv out_slot out_ts)) k3
    = Returned ZX_OK k4 /\
    omap wait_result
      (trace (kernel_handler MAX_SLOTS ext)
         (sys cfg (interrupt_wait_with_timestamp hv out_slot out_ts)) k3)
    = [Some (ZX_OK, 0, T)] /\
    user_memory k4 !! out_slot = Some 0 /\
    user_memory k4 !! out_ts = Some T.
Proof.
  intros Hmax Hval Hvec Hout Hslot Hts Hn1 Hn2 Hne.
  destruct MAX_SLOTS as [|more]; [inversion Hmax|]. clear Hmax.
  set (MAX_SLOTS := S more).
  set (o := fresh (dom (objects k))).
  set (hv := fresh (dom (handle_table k) ∪ dom (unowned k))).
  set (slots0 := replicate MAX_SLOTS idle_slot).
  set (slots1 := <[0%nat := bound_slot V]> slots0).
  set (slots2 := <[0%nat := signalled_slot (bound_slot V) T]> slots1).
  set (k1 := created MAX_SLOTS k out_handle).
  set (k2 := with_vectors <[V := o]>
               (with_objects <[o := (Interrupt slots1, 1%positive)]> k1)).
  set (k3 := with_objects <[o := (Interrupt slots2, 1%positive)]> k2).
  assert (Hfresh_o : objects k !! o = None).
  { apply not_elem_of_dom. apply is_fresh. }
  assert (Hfresh_hv : handle_table k !! hv = None).
  { apply not_elem_of_dom. intros Hin.
    apply (is_fresh (dom (handle_table k) ∪ dom (unowned k))).
    apply elem_of_union_l. exact Hin. }
  assert (Hval1 : validate k1 hrsrc ZX_RSRC_KIND_ROOT None = ZX_OK).
  { rewrite <- Hval. destruct (validate_ok_resolves _ _ _ _ Hval) as (o' & r' & Hh' & Ho').
    apply validate_frame.
    - unfold k1, created. kstep. apply lookup_insert_ne.
      intros Heq. fold hv in Heq. rewrite Heq in Hfresh_hv. congruence.
    - intros o'' r'' Hh''. rewrite Hh' in Hh''. injection Hh'' as <- <-.
      unfold k1, created. kstep. apply lookup_insert_ne.
      intros Heq. fold o in Heq. rewrite <- Heq, Hfresh_o in Ho'.
      destruct Ho' as [? ?]. discriminate. }
  assert (Hh1 : handle_table k1 !! hv = Some (o, DEFAULT_INTERRUPT_RIGHTS)).
  { unfold k1, created. kstep. apply lookup_insert_eq. }
  assert (Ho1 : objects k1 !! o = Some (Interrupt slots0, 1%positive)).
  { unfold k1, created. kstep. apply lookup_insert_eq. }
  assert (Ho2 : objects k2 !! o = Some (Interrupt slots1, 1%positive)).
  { unfold k2. kstep. apply lookup_insert_eq. }
  assert (Ho3 : objects k3 !! o = Some (Interrupt slots2, 1%positive)).
  { unfold k3. kstep. apply lookup_insert_eq. }
  assert (Hmem : forall p, is_Some (user_memory k !! p) ->
                           is_Some (user_memory k3 !! p)).
  { intros p Hp. unfold k3, k2, k1, created. kstep.
    rewrite lookup_insert_is_Some. destruct (decide (out_handle = p)); eauto. }
  pose proof (sys_interrupt_wait_with_timestamp_kernel MAX_SLOTS ext cfg k3 hv out_slot out_ts
                o DEFAULT_INTERRUPT_RIGHTS slots2 1%positive 0%nat
                (signalled_slot (bound_slot V) T) Hh1 Ho3 eq_refl Hn1 Hn2
                (Hmem _ Hslot) (Hmem _ Hts)) as Hwait.
  exists hv, k1, k2, k3. eexists.
  split; [exact (sys_interrupt_create_kernel MAX_SLOTS ext cfg k hrsrc out_handle Hval Hout)|].
  split; [unfold k1, created; kstep; apply lookup_insert_eq|].
  split.
  { exact (sys_interrupt_bind_kernel MAX_SLOTS ext cfg k1 hv hrsrc V 0 o
             DEFAULT_INTERRUPT_RIGHTS slots0 1%positive idle_slot
             Hval1 Hh1 Ho1 eq_refl eq_refl Hvec). }
  split.
  { refine (sys_interrupt_signal_kernel MAX_SLOTS ext cfg k2 hv T o
              DEFAULT_INTERRUPT_RIGHTS slots1 1%positive (bound_slot V)
              Hh1 Ho2 eq_refl _). discriminate. }
  split; [unfold result; rewrite Hwait; reflexivity|].
  split; [unfold trace; rewrite Hwait; reflexivity|].
  kstep. split.
  - rewrite lookup_insert_ne by congruence. apply lookup_insert_eq.
  - apply lookup_insert_eq.
Qed.

Lemma interrupt_round_trip_witness :
  ((0 < 64)%nat /\
   validate boot_kernel 5 ZX_RSRC_KIND_ROOT None = ZX_OK /\
   vectors boot_kernel !! 11 = None /\
   is_Some (user_memory boot_kernel !! 0x2000) /\
   is_Some (user_memory boot_kernel !! 0x2008) /\
   is_Some (user_memory boot_kernel !! 0x2010) /\
   0x2008 <> 0 /\ 0x2010 <> 0 /\ 0x2008 <> 0x2010) /\
  exists hv k1 k2 k3 k4,
    result (kernel_handler 64 no_ext) (sys pc_x86 (interrupt_create 5 0 0x2000))
      boot_kernel = Returned ZX_OK k1 /\
    user_memory k1 !! 0x2000 = Some hv /\
    result (kernel_handler 64 no_ext) (sys pc_x86 (interrupt_bind hv 0 5 11 0)) k1
    = Returned ZX_OK k2 /\
    result (kernel_handler 64 no_ext) (sys pc_x86 (interrupt_signal hv 0 777)) k2
    = Returned ZX_OK k3 /\
    result (kernel_handler 64 no_ext)
      (sys pc_x86 (interrupt_wait_with_timestamp hv 0x2008 0x2010)) k3
    = Returned ZX_OK k4 /\
    omap wait_result
      (trace (kernel_handler 64 no_ext)
         (sys pc_x86 (interrupt_wait_with_timestamp hv 0x2008 0x2010)) k3)
    = [Some (ZX_OK, 0, 777)] /\
    user_memory k4 !! 0x2008 = Some 0 /\
    user_memory k4 !! 0x2010 = Some 777.
Proof.
  assert (H0 : (0 < 64)%nat) by lia.
  assert (H1 : validate boot_kernel 5 ZX_RSRC_KIND_ROOT None = ZX_OK) by reflexivity.
  assert (H2 : vectors boot_kernel !! 11 = None) by reflexivity.
  assert (H3 : is_Some (user_memory boot_kernel !! 0x2000)) by (eexists; reflexivity).
  assert (H4 : is_Some (user_memory boot_kernel !! 0x2008)) by (eexists; reflexivity).
  assert (H5 : is_Some (user_memory boot_kernel !! 0x2010)) by (eexists; reflexivity).
  assert (H6 : 0x2008 <> 0) by discriminate.
  assert (H7 : 0x2010 <> 0) by discriminate.
  assert (H8 : 0x2008 <> 0x2010) by discriminate.
  split; [repeat split; assumption|].
  exact (interrupt_round_trip 64 no_ext pc_x86 boot_kernel 5 11 777
           0x2000 0x2008 0x2010 H0 H1 H2 H3 H4 H5 H6 H7 H8).
Defined.

(** ** Further properties of the system calls *)

Lemma paths_run {St} (hd : handler St) {R} (p : prog R)
    (Q : list event -> ending R -> Prop) (s : St) :
  paths p Q -> Q (trace hd p s) (ending_of (result hd p s)).
Proof.
  revert Q s. induction p as [r| | |X c k IH]; intros Q s Hp; try exact Hp.
  rewrite trace_Vis, result_Vis. apply (IH _ (fun tr l => Q (Ev c _ :: tr) l)).
  apply Hp.
Qed.

Ltac path_step :=
  match goal with
  | |- forall _, _ => intro
  | |- context [drop ?r] => is_var r; destruct r
  | |- context [drop_handle ?h] => is_var h; destruct h
  | |- paths (if ?b then _ else _) _ => destruct b eqn:?
  | |- paths (match ?x with _ => _ end) _ => destruct x
  | |- paths (mbind _ (if ?b then _ else _)) _ => destruct b eqn:?
  | |- paths (Vis _ _) _ => cbn [paths]; intros ?
  | |- paths (_ ≫= _) _ =>
      progress cbn [mbind prog_mbind prog_bind call drop drop_handle]
  | |- paths (call _) _ => unfold call
  | |- paths (Ret _) _ => cbn [paths]
  | |- paths Fault _ => cbn [paths]
  | |- paths Suspend _ => cbn [paths]
  end.

Ltac unfold_sys :=
  cbn [sys];
  unfold sys_interrupt_create, sys_interrupt_bind, sys_interrupt_unbind,
    sys_interrupt_complete, sys_interrupt_wait,
    sys_interrupt_wait_with_timestamp, sys_interrupt_signal,
    sys_vmo_create_contiguous, sys_vmo_create_physical,
    sys_bootloader_fb_get_info, sys_set_framebuffer, sys_set_framebuffer_vmo,
    sys_mmap_device_io, sys_acpi_uefi_rsdp, vmo_handle_out;
  cbv zeta.

Ltac all_paths := unfold_sys; repeat path_step.

(** Turn the conditions gathered along a path into facts on the
    statuses. *)
Ltac status_facts :=
  repeat match goal with
  | H : negb _ = false |- _ => apply negb_false_iff in H
  | H : negb _ = true |- _ => apply negb_true_iff in H
  | H : (_ && _) = true |- _ => apply andb_true_iff in H as [? ?]
  | H : (_ && _) = false |- _ => apply andb_false_iff in H as [H | H]
  | H : (_ || _) = false |- _ => apply orb_false_iff in H as [? ?]
  | H : (?x =? ?y) = true |- _ => apply Z.eqb_eq in H; try subst x
  | H : (_ =? _) = false |- _ => apply Z.eqb_neq in H
  | H : (_ <? _) = true |- _ => apply Z.ltb_lt in H
  | H : (_ <? _) = false |- _ => apply Z.ltb_ge in H
  | H : (_ >=? _) = false |- _ => rewrite Z.geb_leb in H; apply Z.leb_gt in H
  | H : (_ >=? _) = true |- _ => apply Z.geb_le in H
  end.

(** Go through the events of an explicit trace. *)
Ltac members :=
  repeat match goal with
  | H : _ ∈ [] |- _ => apply elem_of_nil in H; contradiction
  | H : _ ∈ _ :: _ |- _ => apply elem_of_cons in H as [-> | H]
  end.

Lemma ending_Returns {R St} (o : outcome R St) (r : R) :
  ending_of o = Returns r <-> exists s, o = Returned r s.
Proof.
  destruct o as [r0 s0|s0|s0]; simpl; split.
  - intros H. injection H as ->. eexists; reflexivity.
  - intros [s' H]. injection H as -> _. reflexivity.
  - discriminate.
  - intros [s' H]. discriminate.
  - discriminate.
  - intros [s' H]. discriminate.
Qed.

(** *** Smart pointers *)

(** X1. A system call that returns has given up every reference it was
    handed, each exactly once: the references it got from lookups,
    creations and the VM-object accessor are, as a multiset, the ones it
    released or moved into a callee. *)
Theorem references_balanced
    (cfg : Platform) {St} (hd : handler St) (sc : syscall) (s s' : St) (r : Z) :
  result hd (sys cfg sc) s = Returned r s' ->
  concat (map acquires (trace hd (sys cfg sc) s))
  ≡ₚ concat (map consumes (trace hd (sys cfg sc) s)).
Proof.
  intros Hres.
  cut (paths (sys cfg sc)
         (fun tr l => (exists r, l = Returns r) ->
                      concat (map acquires tr) ≡ₚ concat (map consumes tr))).
  { intros Hp. apply (paths_run hd _ _ s) in Hp. apply Hp.
    rewrite Hres. eexists; reflexivity. }
  clear. destruct sc; all_paths;
    try (match goal with H : exists _, _ = Returns _ |- _ =>
           destruct H; discriminate end);
    simpl;
    repeat (match goal with |- context [option_list ?o] =>
              is_var o; destruct o end);
    simpl; try reflexivity; try apply perm_swap.
Qed.

Lemma references_balanced_witness :
  let p := sys pc_x86 (vmo_create_contiguous 5 8192 0 64) in
  result (mock ZX_OK 8192) p 0%nat = Returned ZX_OK 8%nat /\
  concat (map acquires (trace (mock ZX_OK 8192) p 0%nat))
  ≡ₚ concat (map consumes (trace (mock ZX_OK 8192) p 0%nat)).
Proof.
  intros p.
  assert (H1 : result (mock ZX_OK 8192) p 0%nat = Returned ZX_OK 8%nat)
    by reflexivity.
  split; [assumption|].
  exact (references_balanced pc_x86 (mock ZX_OK 8192)
           (vmo_create_contiguous 5 8192 0 64) 0%nat 8%nat ZX_OK H1).
Defined.

(** X2. Along every run, a handle that was made is settled exactly
    once: it is installed in the handle table or it is destroyed. *)
Theorem handles_settled
    (cfg : Platform) {St} (hd : handler St) (sc : syscall) (s : St) :
  concat (map makes_handle (trace hd (sys cfg sc) s))
  ≡ₚ concat (map installs_handle (trace hd (sys cfg sc) s))
     ++ concat (map destroys_handle (trace hd (sys cfg sc) s)).
Proof.
  apply (paths_run hd (sys cfg sc)
           (fun tr _ => concat (map makes_handle tr)
                        ≡ₚ concat (map installs_handle tr)
                           ++ concat (map destroys_handle tr))).
  destruct sc; all_paths; reflexivity.
Qed.

(** *** New handles *)

(** X3. A system call that makes a handle returns [ZX_OK] exactly when
    its handle steps are: the handle is made, its value is asked for,
    that value is written to the caller's out-pointer with success, the
    handle is installed -- in this order and nothing else; the value the
    caller reads is then the value of the handle it now owns.  A call
    that ends in any other way has installed no handle. *)
Theorem handle_installed_iff_success
    (cfg : Platform) {St} (hd : handler St) (sc : syscall) (s : St)
    (out : user_ptr) :
  handle_out sc = Some out ->
  (ending_of (result hd (sys cfg sc) s) = Returns ZX_OK <->
   exists h hv,
     omap handle_step_of (trace hd (sys cfg sc) s)
     = [Made h; Named h hv; Wrote out hv ZX_OK; Installed h]) /\
  (ending_of (result hd (sys cfg sc) s) <> Returns ZX_OK ->
   Forall (fun step => forall h, step <> Installed h)
     (omap handle_step_of (trace hd (sys cfg sc) s))).
Proof.
  intros Hout.
  apply (paths_run hd (sys cfg sc)
           (fun tr l =>
              (l = Returns ZX_OK <->
               exists h hv, omap handle_step_of tr
                            = [Made h; Named h hv; Wrote out hv ZX_OK; Installed h]) /\
              (l <> Returns ZX_OK ->
               Forall (fun step => forall h, step <> Installed h)
                 (omap handle_step_of tr)))).
  destruct sc; try discriminate Hout; injection Hout as ->;
    all_paths; status_facts;
    (split;
     [split; [intros Hl; try discriminate Hl; try (injection Hl as Hl);
              try discriminate Hl; try subst; try contradiction;
              try (exfalso; unfold ZX_OK in *; lia);
              try (do 2 eexists; reflexivity)
             |intros (h' & hv' & Heq); simpl in Heq; simplify_eq; try reflexivity;
              try contradiction]
     |intros Hne; try (exfalso; apply Hne; reflexivity); simpl;
      repeat (apply Forall_cons; split; [intros ?; discriminate|]);
      apply Forall_nil_2]).
Qed.

Lemma handle_installed_iff_success_witness :
  let hd := scripted
      {| on_validation := ZX_OK;
         on_lookup := (ZX_OK, Some 1);
         on_creation := (ZX_OK, Some 2);
         on_make := Some 7;
         on_copy := ZX_ERR_INVALID_ARGS;
         on_operation := ZX_OK;
         on_wait := Some ZX_OK |} in
  let sc := interrupt_create 5 0 64 in
  (handle_out sc = Some 64 /\
   ending_of (result hd (sys pc_x86 sc) 0%nat) <> Returns ZX_OK) /\
  Forall (fun step => forall h, step <> Installed h)
    (omap handle_step_of (trace hd (sys pc_x86 sc) 0%nat)).
Proof.
  intros hd sc.
  assert (H1 : handle_out sc = Some 64) by reflexivity.
  assert (H2 : ending_of (result hd (sys pc_x86 sc) 0%nat) <> Returns ZX_OK)
    by (vm_compute; discriminate).
  split; [split; assumption|].
  exact (proj2 (handle_installed_iff_success pc_x86 hd sc 0%nat 64 H1) H2).
Defined.

(** *** Lookups and the interrupt operations *)

Ltac quiet := repeat (apply Forall_cons; split; [repeat split|]); apply Forall_nil_2.

(** X4. When the typed lookup of the target handle answers a status
    other than [ZX_OK], the system call returns that status; it has
    called no dispatcher and no hardware and has written nothing to the
    caller. *)
Theorem lookup_failure_returned
    (cfg : Platform) {St} (hd : handler St) (sc : syscall) (s : St)
    (e : event) (status : zx_status_t) (p : RefPtr) :
  e ∈ trace hd (sys cfg sc) s ->
  lookup_answer e = Some (status, p) ->
  status <> ZX_OK ->
  ending_of (result hd (sys cfg sc) s) = Returns status /\
  Forall (fun e' => touches_dispatcher e' = false /\
                    reaches_hardware e' = false /\ writes_user e' = false)
    (trace hd (sys cfg sc) s).
Proof.
  revert e status p.
  apply (paths_run hd (sys cfg sc)
           (fun tr l => forall e status p,
              e ∈ tr -> lookup_answer e = Some (status, p) -> status <> ZX_OK ->
              l = Returns status /\
              Forall (fun e' => touches_dispatcher e' = false /\
                                reaches_hardware e' = false /\
                                writes_user e' = false) tr)).
  destruct sc; all_paths; status_facts; members; simpl in *; simplify_eq;
    (split; [reflexivity|quiet]).
Qed.

Lemma lookup_failure_returned_witness :
  let hd := scripted
      {| on_validation := ZX_OK;
         on_lookup := (ZX_ERR_BAD_HANDLE, None);
         on_creation := (ZX_OK, Some 2);
         on_make := Some 7;
         on_copy := ZX_OK;
         on_operation := ZX_OK;
         on_wait := Some ZX_OK |} in
  let sc := interrupt_unbind 9 0 in
  let e := Ev (GetDispatcher InterruptDispatcher 9) (ZX_ERR_BAD_HANDLE, None) in
  (e ∈ trace hd (sys pc_x86 sc) 0%nat /\
   lookup_answer e = Some (ZX_ERR_BAD_HANDLE, None) /\
   ZX_ERR_BAD_HANDLE <> ZX_OK) /\
  ending_of (result hd (sys pc_x86 sc) 0%nat) = Returns ZX_ERR_BAD_HANDLE.
Proof.
  intros hd sc e.
  assert (H1 : e ∈ trace hd (sys pc_x86 sc) 0%nat) by (vm_compute; left).
  assert (H2 : lookup_answer e = Some (ZX_ERR_BAD_HANDLE, None)) by reflexivity.
  assert (H3 : ZX_ERR_BAD_HANDLE <> ZX_OK) by discriminate.
  split; [repeat split; assumption|].
  exact (proj1 (lookup_failure_returned pc_x86 hd sc 0%nat e
                  ZX_ERR_BAD_HANDLE None H1 H2 H3)).
Defined.



(** *** Out-values *)

Ltac solve_written :=
  repeat match goal with
  | |- written _ _ _ => progress simpl
  | |- _ /\ _ => split
  | |- exists st w', _ = _ /\ _ => do 2 eexists; split; [reflexivity|]
  | |- context [?x =? ZX_OK] => destruct (Z.eqb_spec x ZX_OK)
  | |- _ = _ => first [reflexivity | congruence]
  end.

(** X6. The two wait calls report only after a wait that answered
    [ZX_OK]: each value goes to its out-pointer, a null pointer is
    skipped, the slot is written before the timestamp, the first write
    that fails ends the reporting and its status is returned; [ZX_OK] is
    returned when no write failed.  After a wait that answered another
    status nothing is written and that status is returned, and a wait
    that does not answer leaves the thread suspended with nothing
    written. *)
Theorem wait_reports
    (cfg : Platform) {St} (hd : handler St) (sc : syscall) (s : St)
    (e : event) (a : option (zx_status_t * list Z)) :
  e ∈ trace hd (sys cfg sc) s ->
  wait_answer e = Some a ->
  match a with
  | None =>
      ending_of (result hd (sys cfg sc) s) = Suspends /\
      omap user_write (trace hd (sys cfg sc) s) = []
  | Some (status, values) =>
      if status =? ZX_OK
      then exists final,
             written (owed_writes (wait_out sc) values)
               (omap user_write (trace hd (sys cfg sc) s)) final /\
             ending_of (result hd (sys cfg sc) s) = Returns final
      else omap user_write (trace hd (sys cfg sc) s) = [] /\
           ending_of (result hd (sys cfg sc) s) = Returns status
  end.
Proof.
  revert e a.
  apply (paths_run hd (sys cfg sc)
           (fun tr l => forall e a,
              e ∈ tr -> wait_answer e = Some a ->
              match a with
              | None => l = Suspends /\ omap user_write tr = []
              | Some (status, values) =>
                  if status =? ZX_OK
                  then exists final,
                         written (owed_writes (wait_out sc) values)
                           (omap user_write tr) final /\ l = Returns final
                  else omap user_write tr = [] /\ l = Returns status
              end)).
  destruct sc; all_paths; status_facts; members; simpl in *; simplify_eq;
    try (split; reflexivity).
  all: repeat match goal with
       | |- context [?x =? ZX_OK] => destruct (Z.eqb_spec x ZX_OK)
       end; try contradiction; try (split; reflexivity).
  all: eexists; (split; [|reflexivity]); unfold owed_writes; simpl.
  all: rewrite ?filter_cons, ?filter_nil.
  all: repeat case_decide; simpl in *; try contradiction; try congruence.
  all: solve_written; congruence.
Qed.

Lemma wait_reports_witness :
  let hd := scripted
      {| on_validation := ZX_OK;
         on_lookup := (ZX_OK, Some 1);
         on_creation := (ZX_OK, Some 2);
         on_make := Some 7;
         on_copy := ZX_OK;
         on_operation := ZX_OK;
         on_wait := Some ZX_ERR_CANCELED |} in
  let sc := interrupt_wait_with_timestamp 9 64 72 in
  let e := Ev (WaitForInterruptWithTimeStamp 1) (Some (ZX_ERR_CANCELED, 0, 777)) in
  (e ∈ trace hd (sys pc_x86 sc) 0%nat /\
   wait_answer e = Some (Some (ZX_ERR_CANCELED, [0; 777]))) /\
  omap user_write (trace hd (sys pc_x86 sc) 0%nat) = [] /\
  ending_of (result hd (sys pc_x86 sc) 0%nat) = Returns ZX_ERR_CANCELED.
Proof.
  intros hd sc e.
  assert (H1 : e ∈ trace hd (sys pc_x86 sc) 0%nat) by (vm_compute; right; left).
  assert (H2 : wait_answer e = Some (Some (ZX_ERR_CANCELED, [0; 777])))
    by reflexivity.
  split; [split; assumption|].
  exact (wait_reports pc_x86 hd sc 0%nat e
           (Some (ZX_ERR_CANCELED, [0; 777])) H1 H2).
Defined.

(** X7. On x86 with a boot framebuffer, [sys_bootloader_fb_get_info]
    does nothing but write: format, width, height and stride of the
    boot framebuffer, each to its pointer, in this order, up to the
    first write that fails, whose status it returns; it returns [ZX_OK]
    when all four were written. *)
Theorem bootloader_fb_get_info_reports
    (cfg : Platform) {St} (hd : handler St) (s : St)
    (format width height stride : user_ptr) :
  ARCH_X86 cfg = true ->
  fb_base cfg <> 0 ->
  let p := sys cfg (bootloader_fb_get_info format width height stride) in
  exists final,
    written (fb_info_writes cfg format width height stride)
      (omap user_write (trace hd p s)) final /\
    ending_of (result hd p s) = Returns final /\
    length (omap user_write (trace hd p s)) = length (trace hd p s).
Proof.
  intros Harch Hbase p. subst p.
  apply (paths_run hd _
           (fun tr l => exists final,
              written (fb_info_writes cfg format width height stride)
                (omap user_write tr) final /\
              l = Returns final /\
              length (omap user_write tr) = length tr)).
  unfold_sys. rewrite Harch. apply Z.eqb_neq in Hbase. rewrite Hbase.
  repeat path_step; status_facts;
    (eexists; split; [|split; reflexivity]);
    unfold fb_info_writes; solve_written; congruence.
Qed.

Lemma bootloader_fb_get_info_reports_witness :
  (ARCH_X86 pc_x86 = true /\ fb_base pc_x86 <> 0) /\
  exists final,
    written (fb_info_writes pc_x86 16 20 24 28)
      (omap user_write
         (trace (mock ZX_OK 0) (sys pc_x86 (bootloader_fb_get_info 16 20 24 28)) 0%nat))
      final /\
    ending_of (result (mock ZX_OK 0)
                 (sys pc_x86 (bootloader_fb_get_info 16 20 24 28)) 0%nat)
    = Returns final /\
    length (omap user_write
              (trace (mock ZX_OK 0)
                 (sys pc_x86 (bootloader_fb_get_info 16 20 24 28)) 0%nat))
    = length (trace (mock ZX_OK 0)
                (sys pc_x86 (bootloader_fb_get_info 16 20 24 28)) 0%nat).
Proof.
  assert (H1 : ARCH_X86 pc_x86 = true) by reflexivity.
  assert (H2 : fb_base pc_x86 <> 0) by discriminate.
  split; [split; assumption|].
  exact (bootloader_fb_get_info_reports pc_x86 (mock ZX_OK 0) 0%nat 16 20 24 28 H1 H2).
Defined.

(** *** Display and IO ports *)

(** X8. Once validation has passed, [sys_set_framebuffer] returns
    [ZX_OK] whatever the display driver answers: it translates the
    caller's address once, hands the translated address and the length
    to the driver, and sets the display information to the caller's
    format and geometry with the hardware-framebuffer flag. *)
Theorem set_framebuffer_always_succeeds
    (cfg : Platform) {St} (hd : handler St) (s : St)
    (hrsrc : zx_handle_t) (vaddr : user_ptr) (len format width height stride : Z)
    (status : zx_status_t) :
  let p := sys cfg (set_framebuffer hrsrc vaddr len format width height stride) in
  (head (trace hd p s) ≫= validation_status) = Some status ->
  0 <= status ->
  ending_of (result hd p s) = Returns ZX_OK /\
  exists paddr,
    omap translation (trace hd p s) = [(vaddr, paddr)] /\
    omap framebuffer_set (trace hd p s) = [(paddr, len)] /\
    omap display_info_set (trace hd p s)
    = [{| di_format := format; di_width := width; di_height := height;
          di_stride := stride; di_flags := DISPLAY_FLAG_HW_FRAMEBUFFER |}].
Proof.
  intros p. subst p.
  apply (paths_run hd _
           (fun tr l =>
              (head tr ≫= validation_status) = Some status -> 0 <= status ->
              l = Returns ZX_OK /\
              exists paddr,
                omap translation tr = [(vaddr, paddr)] /\
                omap framebuffer_set tr = [(paddr, len)] /\
                omap display_info_set tr
                = [{| di_format := format; di_width := width; di_height := height;
                      di_stride := stride;
                      di_flags := DISPLAY_FLAG_HW_FRAMEBUFFER |}])).
  all_paths; status_facts; simpl in *; simplify_eq; try lia.
  split; [reflexivity|]. eexists. repeat split.
Qed.

Lemma set_framebuffer_always_succeeds_witness :
  let p := sys arm64 (set_framebuffer 5 0x4000 0x300000 4 1024 768 1024) in
  ((head (trace (mock ZX_OK 0) p 0%nat) ≫= validation_status) = Some ZX_OK /\
   0 <= ZX_OK) /\
  ending_of (result (mock ZX_OK 0) p 0%nat) = Returns ZX_OK.
Proof.
  intros p.
  assert (H1 : (head (trace (mock ZX_OK 0) p 0%nat) ≫= validation_status)
               = Some ZX_OK) by reflexivity.
  assert (H2 : 0 <= ZX_OK) by (vm_compute; discriminate).
  split; [split; assumption|].
  exact (proj1 (set_framebuffer_always_succeeds arm64 (mock ZX_OK 0) 0%nat
                  5 0x4000 0x300000 4 1024 768 1024 ZX_OK H1 H2)).
Defined.

(** X9. [sys_set_framebuffer_vmo] hands the driver the VM object that
    the accessor of the looked-up dispatcher gave it, and returns the
    status the driver answers.  The display information is set, to the
    caller's format and geometry with the hardware-framebuffer flag,
    exactly when that status is [ZX_OK].  The length argument plays no
    part in the call. *)
Theorem set_framebuffer_vmo_follows_driver
    (cfg : Platform) {St} (hd : handler St) (s : St)
    (hrsrc vmo_handle : zx_handle_t) (len format width height stride : Z)
    (e : event) (vmo : RefPtr) (status : zx_status_t) :
  let p := sys cfg (set_framebuffer_vmo hrsrc vmo_handle len format width height stride) in
  e ∈ trace hd p s ->
  framebuffer_vmo_set e = Some (vmo, status) ->
  ending_of (result hd p s) = Returns status /\
  (exists d,
     Exists (fun e' => lookup_answer e' = Some (ZX_OK, Some d)) (trace hd p s) /\
     Exists (fun e' => accessor_answer e' = Some (d, vmo)) (trace hd p s)) /\
  omap display_info_set (trace hd p s)
  = (if status =? ZX_OK
     then [{| di_format := format; di_width := width; di_height := height;
              di_stride := stride; di_flags := DISPLAY_FLAG_HW_FRAMEBUFFER |}]
     else []) /\
  forall len',
    sys cfg (set_framebuffer_vmo hrsrc vmo_handle len' format width height stride) = p.
Proof.
  intros p. subst p. revert e vmo status.
  apply (paths_run hd _
           (fun tr l => forall e vmo status,
              e ∈ tr -> framebuffer_vmo_set e = Some (vmo, status) ->
              l = Returns status /\
              (exists d,
                 Exists (fun e' => lookup_answer e' = Some (ZX_OK, Some d)) tr /\
                 Exists (fun e' => accessor_answer e' = Some (d, vmo)) tr) /\
              omap display_info_set tr
              = (if status =? ZX_OK
                 then [{| di_format := format; di_width := width;
                          di_height := height; di_stride := stride;
                          di_flags := DISPLAY_FLAG_HW_FRAMEBUFFER |}]
                 else []) /\
              forall len',
                sys cfg (set_framebuffer_vmo hrsrc vmo_handle len' format width
                           height stride)
                = sys cfg (set_framebuffer_vmo hrsrc vmo_handle len format width
                             height stride))).
  all_paths; status_facts; members; simpl in *; simplify_eq.
  all: split; [reflexivity|].
  all: split;
    [eexists; split;
     repeat first [apply Exists_cons_hd; reflexivity | apply Exists_cons_tl]|].
  all: split; [|reflexivity].
  all: try reflexivity.
  all: destruct (Z.eqb_spec status ZX_OK); [contradiction|reflexivity].
Qed.

Lemma set_framebuffer_vmo_follows_driver_witness :
  let p := sys pc_x86 (set_framebuffer_vmo 5 6 0x300000 4 1024 768 1024) in
  let e := Ev (udisplay_set_framebuffer_vmo (Some 2)) ZX_OK in
  (e ∈ trace (mock ZX_OK 0) p 0%nat /\
   framebuffer_vmo_set e = Some (Some 2, ZX_OK)) /\
  ending_of (result (mock ZX_OK 0) p 0%nat) = Returns ZX_OK.
Proof.
  intros p e.
  assert (H1 : e ∈ trace (mock ZX_OK 0) p 0%nat) by (vm_compute; do 3 right; left).
  assert (H2 : framebuffer_vmo_set e = Some (Some 2, ZX_OK)) by reflexivity.
  split; [split; assumption|].
  exact (proj1 (set_framebuffer_vmo_follows_driver pc_x86 (mock ZX_OK 0) 0%nat
                  5 6 0x300000 4 1024 768 1024 e (Some 2) ZX_OK H1 H2)).
Defined.

(** X10. On x86, once validation has passed, [sys_mmap_device_io] makes
    one more call: it asks the IO bitmap to enable -- never to disable
    -- exactly the port range [io_addr, io_addr + len) of the caller,
    and returns the status of that call. *)
Theorem mmap_device_io_enables_range
    (cfg : Platform) {St} (hd : handler St) (s : St)
    (hrsrc : zx_handle_t) (io_addr len : Z) (status : zx_status_t) :
  let p := sys cfg (mmap_device_io hrsrc io_addr len) in
  ARCH_X86 cfg = true ->
  (head (trace hd p s) ≫= validation_status) = Some status ->
  0 <= status ->
  exists st,
    omap io_bitmap_set (trace hd p s) = [(io_addr, len, 1, st)] /\
    ending_of (result hd p s) = Returns st /\
    length (trace hd p s) = 2%nat.
Proof.
  intros p Harch. subst p.
  apply (paths_run hd _
           (fun tr l =>
              (head tr ≫= validation_status) = Some status -> 0 <= status ->
              exists st,
                omap io_bitmap_set tr = [(io_addr, len, 1, st)] /\
                l = Returns st /\ length tr = 2%nat)).
  unfold_sys. rewrite Harch.
  repeat path_step; status_facts; simpl in *; simplify_eq; try lia.
  eexists. repeat split.
Qed.

Lemma mmap_device_io_enables_range_witness :
  let p := sys pc_x86 (mmap_device_io 5 0x3f8 8) in
  (ARCH_X86 pc_x86 = true /\
   (head (trace (mock ZX_OK 0) p 0%nat) ≫= validation_status) = Some ZX_OK /\
   0 <= ZX_OK) /\
  exists st,
    omap io_bitmap_set (trace (mock ZX_OK 0) p 0%nat) = [(0x3f8, 8, 1, st)] /\
    ending_of (result (mock ZX_OK 0) p 0%nat) = Returns st /\
    length (trace (mock ZX_OK 0) p 0%nat) = 2%nat.
Proof.
  intros p.
  assert (H0 : ARCH_X86 pc_x86 = true) by reflexivity.
  assert (H1 : (head (trace (mock ZX_OK 0) p 0%nat) ≫= validation_status)
               = Some ZX_OK) by reflexivity.
  assert (H2 : 0 <= ZX_OK) by (vm_compute; discriminate).
  split; [repeat split; assumption|].
  exact (mmap_device_io_enables_range pc_x86 (mock ZX_OK 0) 0%nat 5 0x3f8 8
           ZX_OK H0 H1 H2).
Defined.

(** *** Creation *)

(** X11. When the creation of the interrupt dispatcher, of a VM object
    or of the dispatcher of a VM object answers a status other than
    [ZX_OK], the system call returns that status as it is and no handle
    is made, named, written out or installed. *)
Theorem creation_failure_returned
    (cfg : Platform) {St} (hd : handler St) (sc : syscall) (s : St)
    (e : event) (status : zx_status_t) :
  e ∈ trace hd (sys cfg sc) s ->
  creation_status e = Some status ->
  status <> ZX_OK ->
  ending_of (result hd (sys cfg sc) s) = Returns status /\
  omap handle_step_of (trace hd (sys cfg sc) s) = [].
Proof.
  revert e status.
  apply (paths_run hd (sys cfg sc)
           (fun tr l => forall e status,
              e ∈ tr -> creation_status e = Some status -> status <> ZX_OK ->
              l = Returns status /\ omap handle_step_of tr = [])).
  destruct sc; all_paths; status_facts; members; simpl in *; simplify_eq;
    split; reflexivity.
Qed.

Lemma creation_failure_returned_witness :
  let hd := scripted
      {| on_validation := ZX_OK;
         on_lookup := (ZX_OK, Some 1);
         on_creation := (ZX_ERR_NO_MEMORY, None);
         on_make := Some 7;
         on_copy := ZX_OK;
         on_operation := ZX_OK;
         on_wait := Some ZX_OK |} in
  let sc := vmo_create_physical 5 4096 4096 64 in
  let e := Ev (VmObjectPhysical_Create 4096 4096) (ZX_ERR_NO_MEMORY, None) in
  (e ∈ trace hd (sys pc_x86 sc) 0%nat /\
   creation_status e = Some ZX_ERR_NO_MEMORY /\
   ZX_ERR_NO_MEMORY <> ZX_OK) /\
  ending_of (result hd (sys pc_x86 sc) 0%nat) = Returns ZX_ERR_NO_MEMORY /\
  omap handle_step_of (trace hd (sys pc_x86 sc) 0%nat) = [].
Proof.
  intros hd sc e.
  assert (H1 : e ∈ trace hd (sys pc_x86 sc) 0%nat) by (vm_compute; right; left).
  assert (H2 : creation_status e = Some ZX_ERR_NO_MEMORY) by reflexivity.
  assert (H3 : ZX_ERR_NO_MEMORY <> ZX_OK) by discriminate.
  split; [repeat split; assumption|].
  exact (creation_failure_returned pc_x86 hd sc 0%nat e ZX_ERR_NO_MEMORY H1 H2 H3).
Defined.

(** X12. A null handle from [Handle::Make] is handled in two ways.  The
    two VM-object system calls return [ZX_ERR_NO_MEMORY] at once: the
    handle is not named, nothing is written, nothing installed.
    [sys_interrupt_create] has no such check and goes on to ask for the
    value of the null handle. *)
Theorem null_handle_after_make
    (cfg : Platform) {St} (hd : handler St) (sc : syscall) (s : St) (e : event) :
  e ∈ trace hd (sys cfg sc) s ->
  handle_step_of e = Some (Made None) ->
  match sc with
  | interrupt_create _ _ _ =>
      exists hv rest,
        omap handle_step_of (trace hd (sys cfg sc) s)
        = Made None :: Named None hv :: rest
  | _ =>
      ending_of (result hd (sys cfg sc) s) = Returns ZX_ERR_NO_MEMORY /\
      omap handle_step_of (trace hd (sys cfg sc) s) = [Made None]
  end.
Proof.
  revert e.
  apply (paths_run hd (sys cfg sc)
           (fun tr l => forall e,
              e ∈ tr -> handle_step_of e = Some (Made None) ->
              match sc with
              | interrupt_create _ _ _ =>
                  exists hv rest,
                    omap handle_step_of tr = Made None :: Named None hv :: rest
              | _ => l = Returns ZX_ERR_NO_MEMORY /\
                     omap handle_step_of tr = [Made None]
              end)).
  destruct sc; all_paths; status_facts; members; simpl in *; simplify_eq;
    try (split; reflexivity); do 2 eexists; reflexivity.
Qed.

Lemma null_handle_after_make_witness :
  let hd := scripted
      {| on_validation := ZX_OK;
         on_lookup := (ZX_OK, Some 1);
         on_creation := (ZX_OK, Some 2);
         on_make := None;
         on_copy := ZX_OK;
         on_operation := ZX_OK;
         on_wait := Some ZX_OK |} in
  let sc := vmo_create_physical 5 4096 4096 64 in
  let e := Ev (Handle_Make (Some 2) 0) None in
  (e ∈ trace hd (sys pc_x86 sc) 0%nat /\
   handle_step_of e = Some (Made None)) /\
  ending_of (result hd (sys pc_x86 sc) 0%nat) = Returns ZX_ERR_NO_MEMORY /\
  omap handle_step_of (trace hd (sys pc_x86 sc) 0%nat) = [Made None].
Proof.
  intros hd sc e.
  assert (H1 : e ∈ trace hd (sys pc_x86 sc) 0%nat)
    by (vm_compute; do 3 right; left).
  assert (H2 : handle_step_of e = Some (Made None)) by reflexivity.
  split; [split; assumption|].
  exact (null_handle_after_make pc_x86 hd sc 0%nat e H1 H2).
Defined.

(** X13. The contiguous commit of [sys_vmo_create_contiguous] is asked
    of the VM object the call has just created, from offset 0, for the
    rounded size, with the alignment of the caller, the page-size shift
    standing in for an alignment of 0: the cast to eight bits loses
    nothing of an alignment that passed the argument check. *)
Theorem commit_request_arguments
    (cfg : Platform) {St} (hd : handler St) (s : St)
    (hrsrc : zx_handle_t) (size alignment_log2 : Z) (_out : user_ptr)
    (e : event) (vmo : kobj) (offset len align : Z) :
  let p := sys cfg (vmo_create_contiguous hrsrc size alignment_log2 _out) in
  0 <= PAGE_SIZE_SHIFT cfg ->
  e ∈ trace hd p s ->
  commit_request e = Some (vmo, offset, len, align) ->
  offset = 0 /\ len = ROUNDUP_PAGE_SIZE cfg size /\
  align = effective_alignment cfg alignment_log2 /\
  PAGE_SIZE_SHIFT cfg <= align < 64 /\
  Exists (fun e' => created_vmo e' = Some vmo) (trace hd p s).
Proof.
  intros p Hshift. subst p. revert e vmo offset len align.
  apply (paths_run hd _
           (fun tr l => forall e vmo offset len align,
              e ∈ tr -> commit_request e = Some (vmo, offset, len, align) ->
              offset = 0 /\ len = ROUNDUP_PAGE_SIZE cfg size /\
              align = effective_alignment cfg alignment_log2 /\
              PAGE_SIZE_SHIFT cfg <= align < 64 /\
              Exists (fun e' => created_vmo e' = Some vmo) tr)).
  unfold_sys. fold (effective_alignment cfg alignment_log2).
  set (a := effective_alignment cfg alignment_log2).
  repeat path_step; status_facts; members; simpl in *; simplify_eq.
  all: assert (Ha : to_uint8 a = a)
         by (unfold to_uint8; apply Z.mod_small; lia);
       rewrite Ha;
       (split; [reflexivity|split; [reflexivity|split; [reflexivity|split; [lia|]]]]);
       repeat first [apply Exists_cons_hd; reflexivity | apply Exists_cons_tl].
Qed.

Lemma commit_request_arguments_witness :
  let p := sys pc_x86 (vmo_create_contiguous 5 8192 0 64) in
  let e := Ev (CommitRangeContiguous 2 0 8192 12) (ZX_OK, 8192) in
  (0 <= PAGE_SIZE_SHIFT pc_x86 /\
   e ∈ trace (mock ZX_OK 8192) p 0%nat /\
   commit_request e = Some (2, 0, 8192, 12)) /\
  0 = 0 /\ 8192 = ROUNDUP_PAGE_SIZE pc_x86 8192 /\
  12 = effective_alignment pc_x86 0.
Proof.
  intros p e.
  assert (H1 : 0 <= PAGE_SIZE_SHIFT pc_x86) by (vm_compute; discriminate).
  assert (H2 : e ∈ trace (mock ZX_OK 8192) p 0%nat)
    by (vm_compute; do 2 right; left).
  assert (H3 : commit_request e = Some (2, 0, 8192, 12)) by reflexivity.
  split; [repeat split; assumption|].
  pose proof (commit_request_arguments pc_x86 (mock ZX_OK 8192) 0%nat
                5 8192 0 64 e 2 0 8192 12 H1 H2 H3) as (Ho & Hl & Ha & _).
  repeat split; assumption.
Defined.

(** *** What each system call may call *)

(** X14. The calls are divided among the system calls: only the three
    creating calls make, name or install handles; only the interrupt
    calls on an existing object and [sys_set_framebuffer_vmo] resolve a
    handle; only bind, unbind, the waits and signal drive the interrupt
    state machine; only [sys_vmo_create_contiguous] reaches the page
    allocator; only the two framebuffer calls and [sys_mmap_device_io]
    reach hardware; only the creating calls, the waits and
    [sys_bootloader_fb_get_info] write to the caller's memory. *)
Theorem calls_by_system_call
    (cfg : Platform) {St} (hd : handler St) (sc : syscall) (s : St) :
  Forall (fun e =>
            (creates_handle e = true -> makes_handles sc = true) /\
            (resolves_handle e = true -> resolves_handles sc = true) /\
            (changes_slot e = true -> drives_slots sc = true) /\
            (allocates_pages e = true -> allocates sc = true) /\
            (reaches_hardware e = true -> drives_hardware sc = true) /\
            (writes_user e = true -> writes_to_user sc = true))
    (trace hd (sys cfg sc) s).
Proof.
  apply (paths_run hd (sys cfg sc)
           (fun tr _ =>
              Forall (fun e =>
                (creates_handle e = true -> makes_handles sc = true) /\
                (resolves_handle e = true -> resolves_handles sc = true) /\
                (changes_slot e = true -> drives_slots sc = true) /\
                (allocates_pages e = true -> allocates sc = true) /\
                (reaches_hardware e = true -> drives_hardware sc = true) /\
                (writes_user e = true -> writes_to_user sc = true)) tr)).
  destruct sc; all_paths;
    repeat (apply Forall_cons;
            split; [repeat split; simpl; intros; first [reflexivity|discriminate]|]);
    apply Forall_nil_2.
Qed.

(** X15. What the validator is asked is fixed by the system call: the
    resource handle of the caller against the root kind, except in
    [sys_vmo_create_physical], which asks the ranged validation about
    the caller's handle, base and size. *)
Theorem validation_request_fixed
    (cfg : Platform) {St} (hd : handler St) (sc : syscall) (s : St) :
  Forall (fun e => forall rq,
            validation_request e = Some rq -> expected_validation sc = Some rq)
    (trace hd (sys cfg sc) s).
Proof.
  apply (paths_run hd (sys cfg sc)
           (fun tr _ =>
              Forall (fun e => forall rq,
                validation_request e = Some rq ->
                expected_validation sc = Some rq) tr)).
  destruct sc; all_paths;
    repeat (apply Forall_cons;
            split; [simpl; intros; simplify_eq; reflexivity|]);
    apply Forall_nil_2.
Qed.

(** X16. A system call that takes a resource handle calls nothing but
    the validator unless the validator has answered, first, with a
    status that is not negative: every other call of a run comes after
    a validation that passed. *)
Theorem calls_need_passed_validation
    (cfg : Platform) {St} (hd : handler St) (sc : syscall) (s : St)
    (hrsrc : zx_handle_t) (e : event) :
  resource_handle sc = Some hrsrc ->
  e ∈ trace hd (sys cfg sc) s ->
  is_validation e = false ->
  exists status,
    (head (trace hd (sys cfg sc) s) ≫= validation_status) = Some status /\
    0 <= status.
Proof.
  intros Hres. revert e.
  apply (paths_run hd (sys cfg sc)
           (fun tr _ => forall e,
              e ∈ tr -> is_validation e = false ->
              exists status,
                (head tr ≫= validation_status) = Some status /\ 0 <= status)).
  destruct sc; try discriminate Hres; all_paths; status_facts; members;
    simpl in *; try discriminate;
    eexists; (split; [reflexivity|assumption]).
Qed.

Lemma calls_need_passed_validation_witness :
  let sc := interrupt_bind 9 3 5 40 0 in
  let e := Ev (Bind 1 3 40 0) ZX_OK in
  (resource_handle sc = Some 5 /\
   e ∈ trace (mock ZX_OK 0) (sys pc_x86 sc) 0%nat /\
   is_validation e = false) /\
  exists status,
    (head (trace (mock ZX_OK 0) (sys pc_x86 sc) 0%nat) ≫= validation_status)
    = Some status /\
    0 <= status.
Proof.
  intros sc e.
  assert (H1 : resource_handle sc = Some 5) by reflexivity.
  assert (H2 : e ∈ trace (mock ZX_OK 0) (sys pc_x86 sc) 0%nat)
    by (vm_compute; do 2 right; left).
  assert (H3 : is_validation e = false) by reflexivity.
  split; [repeat split; assumption|].
  exact (calls_need_passed_validation pc_x86 (mock ZX_OK 0) sc 0%nat 5 e H1 H2 H3).
Defined.

(** *** How a system call can fail to return *)

(** X17. A system call fails to return in two ways only.  It leaves the
    thread suspended only in the two wait calls, when the wait, its
    last call, does not answer; the reference from the lookup is then
    still held.  It faults only after a callee has reported [ZX_OK] and
    handed back a null pointer. *)
Theorem abnormal_endings
    (cfg : Platform) {St} (hd : handler St) (sc : syscall) (s : St) :
  match ending_of (result hd (sys cfg sc) s) with
  | Returns _ => True
  | Suspends =>
      wait_out sc <> [] /\
      (last (trace hd (sys cfg sc) s) ≫= wait_answer) = Some None /\
      concat (map consumes (trace hd (sys cfg sc) s)) = []
  | Faults => existsb ok_with_null (trace hd (sys cfg sc) s) = true
  end.
Proof.
  apply (paths_run hd (sys cfg sc)
           (fun tr l =>
              match l with
              | Returns _ => True
              | Suspends =>
                  wait_out sc <> [] /\
                  (last tr ≫= wait_answer) = Some None /\
                  concat (map consumes tr) = []
              | Faults => existsb ok_with_null tr = true
              end)).
  destruct sc; all_paths; status_facts; try exact I;
    try (split; [discriminate|split; reflexivity]);
    simpl; rewrite ?Z.eqb_refl; simpl; rewrite ?orb_true_r; reflexivity.
Qed.

(** *** Where a system call writes *)

(** X18. A system call writes to the caller's memory only through the
    out-pointers it was given, and never through a null pointer of a
    wait call. *)
Theorem writes_through_out_pointers
    (cfg : Platform) {St} (hd : handler St) (sc : syscall) (s : St) :
  Forall (fun e => forall ptr v st,
            user_write e = Some (ptr, v, st) ->
            ptr ∈ out_pointers sc /\ (wait_out sc <> [] -> ptr <> 0))
    (trace hd (sys cfg sc) s).
Proof.
  apply (paths_run hd (sys cfg sc)
           (fun tr _ => Forall (fun e => forall ptr v st,
              user_write e = Some (ptr, v, st) ->
              ptr ∈ out_pointers sc /\ (wait_out sc <> [] -> ptr <> 0)) tr)).
  destruct sc; all_paths; status_facts;
    repeat (apply Forall_cons; split;
            [simpl; intros ? ? ? Hw; try discriminate Hw;
             injection Hw as <- <- <-;
             (split; [simpl; repeat first [left | right] | simpl; congruence])
            |]);
    apply Forall_nil_2.
Qed.

(** *** Errors are not swallowed *)

(** X19. A system call with a status for its result that returns
    [ZX_OK] has seen no callee answer a negative status, the
    address-taking framebuffer call of the display driver apart, whose
    answer [sys_set_framebuffer] ignores.  Every answer was [ZX_OK]
    itself, save those of the validator and of the contiguous commit,
    which may be positive. *)
Theorem no_error_swallowed
    (cfg : Platform) {St} (hd : handler St) (sc : syscall) (s : St) :
  returns_status sc = true ->
  ending_of (result hd (sys cfg sc) s) = Returns ZX_OK ->
  Forall (fun e => forall st,
            answered_status e = Some st ->
            framebuffer_set e = None ->
            0 <= st /\
            (is_validation e = false -> commit_request e = None -> st = ZX_OK))
    (trace hd (sys cfg sc) s).
Proof.
  intros Hst.
  apply (paths_run hd (sys cfg sc)
           (fun tr l => l = Returns ZX_OK ->
              Forall (fun e => forall st,
                answered_status e = Some st ->
                framebuffer_set e = None ->
                0 <= st /\
                (is_validation e = false -> commit_request e = None ->
                 st = ZX_OK)) tr)).
  destruct sc; try discriminate Hst; all_paths; status_facts;
    repeat match goal with
           | H : _ = Returns ZX_OK |- _ =>
               first [discriminate H | injection H as H | clear H]
           end;
    try discriminate; try subst; try contradiction;
    try (exfalso; unfold ZX_OK in *; lia);
    repeat (apply Forall_cons; split;
            [simpl; intros ? Hs Hf; try discriminate Hs; try discriminate Hf;
             injection Hs as <-;
             (split; [unfold ZX_OK in *; lia | intros; congruence])
            |]);
    apply Forall_nil_2.
Qed.

Lemma no_error_swallowed_witness :
  let p := sys pc_x86 (vmo_create_contiguous 5 8192 0 64) in
  (returns_status (vmo_create_contiguous 5 8192 0 64) = true /\
   ending_of (result (mock ZX_OK 8192) p 0%nat) = Returns ZX_OK) /\
  Forall (fun e => forall st,
            answered_status e = Some st ->
            framebuffer_set e = None ->
            0 <= st /\
            (is_validation e = false -> commit_request e = None -> st = ZX_OK))
    (trace (mock ZX_OK 8192) p 0%nat).
Proof.
  intros p.
  assert (H0 : returns_status (vmo_create_contiguous 5 8192 0 64) = true)
    by reflexivity.
  assert (H1 : ending_of (result (mock ZX_OK 8192) p 0%nat) = Returns ZX_OK)
    by reflexivity.
  split; [split; assumption|].
  exact (no_error_swallowed pc_x86 (mock ZX_OK 8192)
           (vmo_create_contiguous 5 8192 0 64) 0%nat H0 H1).
Defined.
